(** * Session Manager: the kill -> poll -> clear-metadata workflow

    A shallow embedding of [HappyApiClient] (src/session-manager/src/api,
    the client half of cli/executor.ts) and of [HappyCliExecutor]
    (cli/executor.ts), followed by the properties of the workflow that the
    resume and the kill actions run against the session registry.

    The asynchronous methods are sequential chains of [await]s, so each one
    is a computation in a monad that threads the outside world (registry
    and clock), can throw a JavaScript [Error], and lists the effects it
    performed in the order it performed them. *)

From Stdlib Require Import ZArith List String Bool Lia.
From Stdlib Require Import DecimalString.
Import ListNotations.
Local Open Scope string_scope.
Local Open Scope list_scope.
Local Open Scope Z_scope.

(** Concatenation inside template literals. *)
Infix "+++" := String.append (at level 60, right associativity).

(** ** Data model (src/session-manager/src/types) *)

(** [LocalSession], restricted to the fields the client and the executor
    read; [T | null] is [option T]. *)
Record LocalSession : Type := mkSession {
  claudeSessionId : string;
  status : string;
  cwd : option string;
  pid : option Z;
  happySessionId : option string;
  happySessionTag : option string
}.

(** [signal?: 'term' | 'kill'] *)
Inductive Signal : Type := term | kill.

(** Body of POST /v1/local-sessions/:id/kill. *)
Record KillOptions : Type := mkKillOptions {
  signal : option Signal;
  targetPid : option Z
}.

(** Query of GET /v1/local-sessions. *)
Record ListOptions : Type := mkListOptions {
  limit : option Z;
  filterId : option string
}.

(** [{ ok: boolean; signal: string; pid: number }] *)
Record KillResponse : Type := mkKillResponse {
  kr_ok : bool;
  kr_signal : string;
  kr_pid : Z
}.

(** Body of the upsert POST /v1/local-sessions. *)
Record UpsertBody : Type := mkUpsert {
  up_claudeSessionId : string;
  up_happySessionId : option string;
  up_happySessionTag : option string
}.

(** [{ timeout?: number; interval?: number }] *)
Record PollOptions : Type := mkPollOptions {
  timeout : option Z;
  interval : option Z
}.

(** An axios call either resolves with [response.data] or rejects with an
    error carrying a [message]. *)
Inductive HttpResult (A : Type) : Type :=
| HttpOk (data : A)
| HttpErr (message : string).
Arguments HttpOk {A} data.
Arguments HttpErr {A} message.

(** [ApiResponse<LocalSession>]: the [sessions] member is optional. *)
Definition SessionsBody : Type := option (list LocalSession).

(** ** JavaScript operators used by the source *)

(** Truthiness of [number | null]: [null] and [0] are falsy. *)
Definition truthy_num (n : option Z) : bool :=
  match n with
  | Some v => negb (v =? 0)
  | None => false
  end.

(** Truthiness of [string | null]: [null] and the empty string are falsy. *)
Definition truthy_str (s : option string) : bool :=
  match s with
  | Some EmptyString => false
  | Some _ => true
  | None => false
  end.

(** [n || d] on an optional number. *)
Definition num_or (n : option Z) (d : Z) : Z :=
  if truthy_num n then match n with Some v => v | None => d end else d.

(** [s || undefined] on [string | null]. *)
Definition str_or_undefined (s : option string) : option string :=
  if truthy_str s then s else None.

(** [xs || []] on an optional array: every array is truthy. *)
Definition list_or_empty {A : Type} (xs : option (list A)) : list A :=
  match xs with
  | Some l => l
  | None => []
  end.

(** [s.slice(0, n)] *)
Definition slice0 (n : nat) (s : string) : string := substring 0 n s.

(** Interpolation of an integer inside a template literal. *)
Definition show_num (z : Z) : string := NilZero.string_of_int (Z.to_int z).

(** ** Effects

    Every effect a method performs is listed, requests together with what
    came back. *)
Inductive Event : Type :=
| EvGetSessions (params : option ListOptions) (res : HttpResult SessionsBody)
| EvPostKill (id : string) (body : option KillOptions)
             (res : HttpResult KillResponse)
| EvPostUpsert (body : UpsertBody) (res : HttpResult unit)
| EvSleep (ms : Z)
| EvConsoleError (label msg : string)
| EvInfo (msg : string)
| EvWarning (msg : string)
| EvCreateTerminal (name : string) (dir : option string)
| EvSendText (text : string)
| EvTerminalShow.

(** How a call ends: it resolves, it rejects with [new Error(message)], or
    the model ran out of [fuel] before the loop of [pollSession] ended. *)
Inductive Outcome (A : Type) : Type :=
| Ok (a : A)
| Throw (message : string)
| OutOfFuel.
Arguments Ok {A} a.
Arguments Throw {A} message.
Arguments OutOfFuel {A}.

(** The world outside the extension: the registry behind axios and the
    clock. [W] is the state of that world. *)
Record Host (W : Type) : Type := mkHost {
  axios_get_sessions : option ListOptions -> W -> HttpResult SessionsBody * W;
  axios_post_kill :
    string -> option KillOptions -> W -> HttpResult KillResponse * W;
  axios_post_upsert : UpsertBody -> W -> HttpResult unit * W;
  Date_now : W -> Z;
  setTimeout : Z -> W -> W
}.
Arguments axios_get_sessions {W} _ _ _.
Arguments axios_post_kill {W} _ _ _ _.
Arguments axios_post_upsert {W} _ _ _.
Arguments Date_now {W} _ _.
Arguments setTimeout {W} _ _ _.

(** ** The monad of asynchronous methods *)
Module Async.

Definition M (W A : Type) : Type := W -> Outcome A * W * list Event.

Definition ret {W A : Type} (a : A) : M W A := fun w => (Ok a, w, []).

Definition bind {W A B : Type} (m : M W A) (f : A -> M W B) : M W B :=
  fun w =>
    match m w with
    | (Ok a, w1, t1) =>
        match f a w1 with
        | (o, w2, t2) => (o, w2, t1 ++ t2)
        end
    | (Throw e, w1, t1) => (Throw e, w1, t1)
    | (OutOfFuel, w1, t1) => (OutOfFuel, w1, t1)
    end.

(** [throw new Error(message)] *)
Definition throw {W A : Type} (message : string) : M W A :=
  fun w => (Throw message, w, []).

(** [try { m } catch (error) { h error.message }]: only a thrown error is
    caught. *)
Definition try_catch {W A : Type} (m : M W A) (h : string -> M W A) : M W A :=
  fun w =>
    match m w with
    | (Throw e, w1, t1) =>
        match h e w1 with
        | (o, w2, t2) => (o, w2, t1 ++ t2)
        end
    | r => r
    end.

Definition out_of_fuel {W A : Type} : M W A := fun w => (OutOfFuel, w, []).

(** An effect that does not touch the registry or the clock. *)
Definition emit {W : Type} (e : Event) : M W unit := fun w => (Ok tt, w, [e]).

End Async.
Import Async.

Notation "x <- m ;; k" := (bind m (fun x => k))
  (at level 61, m at next level, right associativity).
Notation "m ;;; k" := (bind m (fun _ => k))
  (at level 61, right associativity).

Definition outcome {W A : Type} (r : Outcome A * W * list Event) : Outcome A :=
  fst (fst r).
Definition world {W A : Type} (r : Outcome A * W * list Event) : W :=
  snd (fst r).
Definition events {W A : Type} (r : Outcome A * W * list Event) : list Event :=
  snd r.

(** ** HappyApiClient (api/client.ts) *)
Module ApiClient.
Section Client.

Context {W : Type} (host : Host W).

(** [this.baseUrl] *)
Variable baseUrl : string.

(** [await this.client.get('/v1/local-sessions', { params })]: a rejected
    promise is a thrown error at the [await]. *)
Definition client_get_sessions (params : option ListOptions)
  : M W SessionsBody :=
  fun w =>
    match axios_get_sessions host params w with
    | (HttpOk d, w') => (Ok d, w', [EvGetSessions params (HttpOk d)])
    | (HttpErr m, w') => (Throw m, w', [EvGetSessions params (HttpErr m)])
    end.

(** [await this.client.post(`/v1/local-sessions/${id}/kill`, options)] *)
Definition client_post_kill (id : string) (body : option KillOptions)
  : M W KillResponse :=
  fun w =>
    match axios_post_kill host id body w with
    | (HttpOk d, w') => (Ok d, w', [EvPostKill id body (HttpOk d)])
    | (HttpErr m, w') => (Throw m, w', [EvPostKill id body (HttpErr m)])
    end.

(** [await this.client.post('/v1/local-sessions', body)] *)
Definition client_post_upsert (body : UpsertBody) : M W unit :=
  fun w =>
    match axios_post_upsert host body w with
    | (HttpOk d, w') => (Ok d, w', [EvPostUpsert body (HttpOk d)])
    | (HttpErr m, w') => (Throw m, w', [EvPostUpsert body (HttpErr m)])
    end.

(** [Date.now()] *)
Definition now : M W Z := fun w => (Ok (Date_now host w), w, []).

(** [await new Promise(resolve => setTimeout(resolve, ms))] *)
Definition sleep (ms : Z) : M W unit :=
  fun w => (Ok tt, setTimeout host ms w, [EvSleep ms]).

Definition console_error (label msg : string) : M W unit :=
  emit (EvConsoleError label msg).

Definition listSessions (options : option ListOptions)
  : M W (list LocalSession) :=
  try_catch
    (data <- client_get_sessions options ;;
     ret (list_or_empty data))
    (fun message =>
       console_error "Failed to fetch sessions:" message ;;;
       throw ("Cannot connect to Happy server at " +++ baseUrl)).

Definition killSession (claudeSessionId : string)
    (options : option KillOptions) : M W KillResponse :=
  try_catch
    (data <- client_post_kill claudeSessionId options ;;
     ret data)
    (fun message =>
       console_error "Failed to kill session:" message ;;;
       throw ("Cannot kill session " +++ claudeSessionId)).

Definition clearHappyMetadata (claudeSessionId : string) : M W unit :=
  try_catch
    (client_post_upsert (mkUpsert claudeSessionId None None))
    (fun message =>
       console_error "Failed to clear Happy metadata:" message ;;;
       throw ("Cannot detach session " +++ claudeSessionId +++ " from Happy")).

Definition getSession (claudeSessionId : string)
  : M W (option LocalSession) :=
  try_catch
    (sessions <-
       listSessions (Some (mkListOptions (Some 1) (Some claudeSessionId))) ;;
     ret (match sessions with
          | s :: _ => Some s
          | [] => None
          end))
    (fun message =>
       console_error "Failed to fetch session:" message ;;;
       throw ("Cannot fetch session " +++ claudeSessionId)).

(** The [while] loop of [pollSession]; one unit of [fuel] per test of the
    loop condition. *)
Fixpoint pollLoop (fuel : nat) (claudeSessionId : string)
    (predicate : LocalSession -> bool) (timeout interval startTime : Z)
  : M W LocalSession :=
  match fuel with
  | O => out_of_fuel
  | S fuel' =>
      t <- now ;;
      if t - startTime <? timeout then
        session <- getSession claudeSessionId ;;
        match session with
        | None => throw ("Session " +++ claudeSessionId +++ " not found")
        | Some s =>
            if predicate s then ret s
            else
              sleep interval ;;;
              pollLoop fuel' claudeSessionId predicate
                       timeout interval startTime
        end
      else throw ("Polling timeout after " +++ show_num timeout +++ "ms")
  end.

Definition pollSession (fuel : nat) (claudeSessionId : string)
    (predicate : LocalSession -> bool) (options : PollOptions)
  : M W LocalSession :=
  let timeout := num_or (timeout options) 10000 in
  let interval := num_or (interval options) 500 in
  startTime <- now ;;
  pollLoop fuel claudeSessionId predicate timeout interval startTime.

End Client.
End ApiClient.

(** ** HappyCliExecutor (cli/executor.ts) *)
Module Executor.
Section Executor.

Context {W : Type} (host : Host W).
Variable baseUrl : string.

(** [(s) => s.pid === null || s.status === 'terminated'] *)
Definition pid_cleared (s : LocalSession) : bool :=
  match pid s with
  | None => true
  | Some _ => false
  end || String.eqb (status s) "terminated".

Definition killSessionSilently (fuel : nat) (session : LocalSession)
  : M W unit :=
  let targetPid := pid session in
  if negb (truthy_num targetPid) then throw "Session has no PID to kill"
  else
    ApiClient.killSession host (claudeSessionId session)
      (Some (mkKillOptions (Some term) targetPid)) ;;;
    ApiClient.pollSession host baseUrl fuel (claudeSessionId session)
      pid_cleared (mkPollOptions (Some 10000) (Some 500)) ;;;
    ApiClient.clearHappyMetadata host (claudeSessionId session).

Definition killSession (fuel : nat) (session : LocalSession) : M W unit :=
  if negb (truthy_num (pid session)) then throw "Session has no PID"
  else
    let targetPid := pid session in
    let isHappySession := truthy_str (happySessionId session) in
    ApiClient.killSession host (claudeSessionId session)
      (Some (mkKillOptions (Some term) targetPid)) ;;;
    ApiClient.pollSession host baseUrl fuel (claudeSessionId session)
      pid_cleared (mkPollOptions (Some 10000) (Some 500)) ;;;
    if isHappySession then
      ApiClient.clearHappyMetadata host (claudeSessionId session)
    else ret tt.

Definition resumeSessionInTerminal (fuel : nat) (session : LocalSession)
  : M W unit :=
  let sessionIdShort := slice0 8 (claudeSessionId session) in
  let isHappySession := truthy_str (happySessionId session) in
  let isActive :=
    String.eqb (status session) "active"
    || String.eqb (status session) "happy-active" in
  (if isHappySession && isActive && truthy_num (pid session) then
     try_catch
       (emit (EvInfo ("Moving session " +++ sessionIdShort
                      +++ " from phone to VS Code...")) ;;;
        killSessionSilently fuel session ;;;
        emit (EvInfo ("Session " +++ sessionIdShort
                      +++ " terminated. Ready to resume locally.")))
       (fun message =>
          emit (EvWarning ("Failed to kill active session: " +++ message
                           +++ ". Attempting to resume anyway.")))
   else ret tt) ;;;
  emit (EvCreateTerminal ("Claude " +++ sessionIdShort)
                         (str_or_undefined (cwd session))) ;;;
  emit (EvSendText ("claude --resume " +++ claudeSessionId session)) ;;;
  emit EvTerminalShow ;;;
  emit (EvInfo ("Resuming session " +++ sessionIdShort +++ " in terminal")).

End Executor.
End Executor.

(** ** Reading the list of effects *)

(** What one poll saw, judged by the exit predicate of the two callers. *)
Inductive Observation : Type :=
| Cleared       (* a record whose pid is null or whose status is terminated *)
| Pending       (* a record that still shows the process *)
| Missing       (* no record *)
| Unreachable.  (* the GET itself was rejected *)

(** The three requests of the workflow, each with how it went. *)
Inductive Request : Type :=
| Terminate (accepted : bool)
| Poll (seen : Observation)
| Clear (accepted : bool).

Definition accepted_of {A : Type} (r : HttpResult A) : bool :=
  match r with
  | HttpOk _ => true
  | HttpErr _ => false
  end.

Definition observe (r : HttpResult SessionsBody) : Observation :=
  match r with
  | HttpErr _ => Unreachable
  | HttpOk body =>
      match list_or_empty body with
      | [] => Missing
      | s :: _ => if Executor.pid_cleared s then Cleared else Pending
      end
  end.

Definition request_of (e : Event) : option Request :=
  match e with
  | EvPostKill _ _ r => Some (Terminate (accepted_of r))
  | EvGetSessions _ r => Some (Poll (observe r))
  | EvPostUpsert _ r => Some (Clear (accepted_of r))
  | _ => None
  end.

(** The registry requests among the effects, in order. *)
Fixpoint requests (tr : list Event) : list Request :=
  match tr with
  | [] => []
  | e :: tr' =>
      match request_of e with
      | Some r => r :: requests tr'
      | None => requests tr'
      end
  end.

Definition is_terminate (r : Request) : bool :=
  match r with Terminate _ => true | _ => false end.
Definition is_clear (r : Request) : bool :=
  match r with Clear _ => true | _ => false end.

(** A request that makes its step fail. *)
Definition failed (r : Request) : bool :=
  match r with
  | Terminate accepted => negb accepted
  | Poll Missing => true
  | Poll Unreachable => true
  | Poll _ => false
  | Clear accepted => negb accepted
  end.

Definition count (f : Request -> bool) (rs : list Request) : nat :=
  List.length (filter f rs).

Definition is_get (e : Event) : bool :=
  match e with EvGetSessions _ _ => true | _ => false end.
Definition is_sleep (e : Event) : bool :=
  match e with EvSleep _ => true | _ => false end.

Definition poll_params (id : string) : option ListOptions :=
  Some (mkListOptions (Some 1) (Some id)).

Definition timeout_message (timeout : Z) : string :=
  "Polling timeout after " +++ show_num timeout +++ "ms".

Definition not_found_message (id : string) : string :=
  "Session " +++ id +++ " not found".

Definition is_ok {A : Type} (o : Outcome A) : bool :=
  match o with Ok _ => true | _ => false end.

(** ** The order of the requests *)

(** Requests of the poll loop: polls that saw the process still there,
    then either one poll that saw it cleared (the loop returns) or a poll
    that failed, or nothing more (time budget spent). The flag tells whether
    the loop returned. *)
Inductive polling : bool -> list Request -> Prop :=
| polling_cleared : polling true [Poll Cleared]
| polling_spent : polling false []
| polling_failed (o : Observation) :
    failed (Poll o) = true -> polling false [Poll o]
| polling_pending (ok : bool) (rs : list Request) :
    polling ok rs -> polling ok (Poll Pending :: rs).

(** Requests of one whole run of the workflow. *)
Inductive workflow : list Request -> Prop :=
| workflow_none : workflow []
| workflow_rejected : workflow [Terminate false]
| workflow_unpolled (rs : list Request) :
    polling false rs -> workflow (Terminate true :: rs)
| workflow_polled (rs : list Request) :
    polling true rs -> workflow (Terminate true :: rs)
| workflow_cleared (rs : list Request) (accepted : bool) :
    polling true rs -> workflow (Terminate true :: rs ++ [Clear accepted]).

(** Strict sequence, each step at most once: one terminate at most and one
    clear at most; every poll comes after an accepted terminate; a clear
    comes right after a poll that saw the process cleared and nothing
    follows it; nothing follows a failed request. *)
Definition strict_sequence (rs : list Request) : Prop :=
  (count is_terminate rs <= 1)%nat /\
  (count is_clear rs <= 1)%nat /\
  (forall pre o post,
      rs = pre ++ Poll o :: post ->
      exists pre', pre = Terminate true :: pre') /\
  (forall pre b post,
      rs = pre ++ Clear b :: post ->
      post = [] /\ exists pre', pre = pre' ++ [Poll Cleared]) /\
  (forall pre r post,
      rs = pre ++ r :: post -> failed r = true -> post = []).

(** The body both callers post to the kill endpoint. *)
Definition kill_body (s : LocalSession) : option KillOptions :=
  Some (mkKillOptions (Some term) (pid s)).

Definition clear_body (s : LocalSession) : UpsertBody :=
  mkUpsert (claudeSessionId s) None None.

Definition kill_failed_message (id : string) : string :=
  "Cannot kill session " +++ id.

Definition clear_failed_message (id : string) : string :=
  "Cannot detach session " +++ id +++ " from Happy".

(** ** Registries to run the model against *)
Module Sim.

(** A registry that answers from a script. *)
Record World : Type := mkWorld {
  clock : Z;
  kill_reply : HttpResult KillResponse;
  poll_replies : list (HttpResult SessionsBody);
  steady_reply : HttpResult SessionsBody;
  clear_reply : HttpResult unit
}.

Definition tick (ms : Z) (w : World) : World :=
  mkWorld (clock w + ms) (kill_reply w) (poll_replies w) (steady_reply w)
          (clear_reply w).

Definition next_poll (w : World) : HttpResult SessionsBody * World :=
  match poll_replies w with
  | [] => (steady_reply w, w)
  | r :: rest =>
      (r, mkWorld (clock w) (kill_reply w) rest (steady_reply w)
                  (clear_reply w))
  end.

Definition scripted : Host World :=
  mkHost World
    (fun _ w => next_poll w)
    (fun _ _ w => (kill_reply w, w))
    (fun _ w => (clear_reply w, w))
    clock
    tick.

(** A registry that accepts every request and always shows the same
    record; its state is the clock, which only a sleep advances. *)
Definition constant (record : LocalSession) : Host Z :=
  mkHost Z
    (fun _ t => (HttpOk (Some [record]), t))
    (fun _ body t =>
       (HttpOk (mkKillResponse true "term"
                  (match body with
                   | Some (mkKillOptions _ (Some p)) => p
                   | Some (mkKillOptions _ None) => 0
                   | None => 0
                   end)), t))
    (fun _ t => (HttpOk tt, t))
    (fun t => t)
    (fun ms t => t + ms).

Definition url : string := "http://127.0.0.1:3005".

(** A session running on the phone. *)
Definition s1 : LocalSession :=
  mkSession "s1-4242-abcdef" "happy-active" (Some "/home/distiller/project")
            (Some 4242) (Some "happy-1") (Some "tag-1").

(** The same record once its process is gone. *)
Definition s1_gone : LocalSession :=
  mkSession "s1-4242-abcdef" "terminated" (Some "/home/distiller/project")
            None None None.

(** A session without a process. *)
Definition s2 : LocalSession :=
  mkSession "s2" "terminated" None None None None.

Definition accepted_kill : HttpResult KillResponse :=
  HttpOk (mkKillResponse true "term" 4242).

Definition seen (s : LocalSession) : HttpResult SessionsBody :=
  HttpOk (Some [s]).

Definition nothing : HttpResult SessionsBody := HttpOk (Some []).

End Sim.

(** ** Assumptions about the registry and the clock *)
Section Assumptions.

Context {W : Type} (host : Host W).

(** The registry accepts every terminate request. *)
Definition accepts_terminate : Prop :=
  forall id body w, exists d w',
    axios_post_kill host id body w = (HttpOk d, w').

(** The registry accepts every metadata-clear request. *)
Definition accepts_clear : Prop :=
  forall body w, exists w',
    axios_post_upsert host body w = (HttpOk tt, w').

(** Every poll finds the record, with its pid still set and a status other
    than terminated. *)
Definition never_clears : Prop :=
  forall params w, exists body s rest w',
    axios_get_sessions host params w = (HttpOk body, w') /\
    list_or_empty body = s :: rest /\
    Executor.pid_cleared s = false.

(** Every poll finds the record with the process gone. *)
Definition always_cleared : Prop :=
  forall params w, exists body s rest w',
    axios_get_sessions host params w = (HttpOk body, w') /\
    list_or_empty body = s :: rest /\
    Executor.pid_cleared s = true.

(** A poll takes no time and a sleep takes exactly its delay. *)
Definition instant_polls : Prop :=
  (forall params w,
      Date_now host (snd (axios_get_sessions host params w)) = Date_now host w)
  /\
  (forall ms w, Date_now host (setTimeout host ms w) = Date_now host w + ms).

(** Time does not run backwards during a poll and a sleep lasts at least
    its delay. *)
Definition clock_advances : Prop :=
  (forall params w,
      Date_now host w <= Date_now host (snd (axios_get_sessions host params w)))
  /\
  (forall ms w, Date_now host w + ms <= Date_now host (setTimeout host ms w)).

End Assumptions.

Definition count_events (f : Event -> bool) (tr : list Event) : nat :=
  List.length (filter f tr).

Module Scenario.

(** The record is there for two polls and gone at the third. *)
Definition vanishing : Sim.World :=
  Sim.mkWorld 0 Sim.accepted_kill [Sim.seen Sim.s1; Sim.seen Sim.s1]
              Sim.nothing (HttpOk tt).

(** The process is gone at the first poll and every request is accepted. *)
Definition prompt : Sim.World :=
  Sim.mkWorld 0 Sim.accepted_kill [] (Sim.seen Sim.s1_gone) (HttpOk tt).

(** The process is gone at the first poll but the upsert is rejected. *)
Definition clear_rejected : Sim.World :=
  Sim.mkWorld 0 Sim.accepted_kill [] (Sim.seen Sim.s1_gone)
              (HttpErr "Request failed with status code 500").

(** The server cannot be reached. *)
Definition server_down : Sim.World :=
  Sim.mkWorld 0 (HttpErr "Network Error") [] (HttpErr "Network Error")
              (HttpErr "Network Error").

End Scenario.

(** The kill requests among the effects: session id and body posted. *)
Fixpoint kill_requests (tr : list Event)
  : list (string * option KillOptions) :=
  match tr with
  | [] => []
  | EvPostKill id body _ :: tr' => (id, body) :: kill_requests tr'
  | _ :: tr' => kill_requests tr'
  end.

(** The signal strength a kill request carries. *)
Definition signal_sent (req : string * option KillOptions) : option Signal :=
  match snd req with
  | Some o => signal o
  | None => None
  end.

(** What [resumeSessionInTerminal] does with the terminal, last of all. *)
Definition terminal_effects (s : LocalSession) : list Event :=
  [EvCreateTerminal ("Claude " +++ slice0 8 (claudeSessionId s))
     (str_or_undefined (cwd s));
   EvSendText ("claude --resume " +++ claudeSessionId s);
   EvTerminalShow;
   EvInfo ("Resuming session " +++ slice0 8 (claudeSessionId s)
           +++ " in terminal")].

(** The test that guards the kill in [resumeSessionInTerminal]. *)
Definition kills_first (s : LocalSession) : bool :=
  truthy_str (happySessionId s)
  && (String.eqb (status s) "active" || String.eqb (status s) "happy-active")
  && truthy_num (pid s).

Definition kill_warning (message : string) : Event :=
  EvWarning ("Failed to kill active session: " +++ message
             +++ ". Attempting to resume anyway.").

Definition poll_options : PollOptions :=
  mkPollOptions (Some 10000) (Some 500).

(** ** Errors of the client calls inside the two procedures *)
Section Surfacing.

Context {W : Type} (host : Host W).
Variable baseUrl : string.

(** [run], a run of one of the two procedures for [s] from [w], stops at
    the first client call that throws and throws that very error: the
    effects are those made up to there, that call included, and the world is
    as that call left it. [clears] tells whether the procedure goes on to
    the metadata-clear call after the polls. *)
Definition surfaces_client_errors (fuel : nat) (s : LocalSession) (w : W)
    (clears : bool) (run : Outcome unit * W * list Event) : Prop :=
  let id := claudeSessionId s in
  let k := ApiClient.killSession host id (kill_body s) w in
  let p := ApiClient.pollSession host baseUrl fuel id Executor.pid_cleared
             poll_options (world k) in
  let c := ApiClient.clearHappyMetadata host id (world p) in
  (forall e,
      outcome k = Throw e -> run = (Throw e, world k, events k)) /\
  (forall e,
      is_ok (outcome k) = true -> outcome p = Throw e ->
      run = (Throw e, world p, events k ++ events p)) /\
  (forall e,
      is_ok (outcome k) = true -> is_ok (outcome p) = true ->
      clears = true -> outcome c = Throw e ->
      run = (Throw e, world c, events k ++ events p ++ events c)).

End Surfacing.

(** ** Tactics *)

(** The error a step threw is the error the run throws. *)
Ltac blame :=
  let E := fresh "E" in
  intros E; injection E as <-; auto.


(** * Further behaviour of the client, the executor and their callers *)

From Stdlib Require Import Permutation Sorted.

(** ** The poll loop with any predicate and any options *)

(** The budget and the delay [pollSession] works with. *)
Definition effective_timeout (options : PollOptions) : Z :=
  num_or (timeout options) 10000.

Definition effective_interval (options : PollOptions) : Z :=
  num_or (interval options) 500.

(** What the poll loop may do: GET the one record, sleep for the delay, log
    an error on the console. *)
Definition poll_effect (id : string) (delay : Z) (e : Event) : Prop :=
  (exists r, e = EvGetSessions (poll_params id) r) \/
  e = EvSleep delay \/
  (exists label msg, e = EvConsoleError label msg).

(** ** What the two procedures post and throw *)

(** The bodies upserted among the effects. *)
Fixpoint upsert_bodies (tr : list Event) : list UpsertBody :=
  match tr with
  | [] => []
  | EvPostUpsert body _ :: tr' => body :: upsert_bodies tr'
  | _ :: tr' => upsert_bodies tr'
  end.

(** Every message the kill workflow can throw for a session id; [own] is
    the message of the procedure's own test of the pid. *)
Definition failure_messages (own id : string) : list string :=
  [own;
   "Cannot kill session " +++ id;
   "Cannot fetch session " +++ id;
   "Session " +++ id +++ " not found";
   "Polling timeout after 10000ms";
   "Cannot detach session " +++ id +++ " from Happy"].

(** The message [resumeSessionInTerminal] shows after the kill. *)
Definition terminated_info (s : LocalSession) : Event :=
  EvInfo ("Session " +++ slice0 8 (claudeSessionId s)
          +++ " terminated. Ready to resume locally.").

(** ** The kill command (extension.ts) *)
Module Extension.

(** Effects of a command handler: those of the executor, and the handler's
    own error messages, its modal question and the refresh it starts
    without awaiting it. *)
Inductive UiEvent : Type :=
| Core (e : Event)
| UiError (msg : string)
| UiConfirm (msg button : string)
| UiRefresh.

(** The argument of a tree command: [item] may be undefined and its
    [session] may be missing. *)
Definition Item : Type := option (option LocalSession).

(** [result === 'Kill Session'] *)
Definition confirmed (result : option string) : bool :=
  match result with
  | Some button => String.eqb button "Kill Session"
  | None => false
  end.

(** Outcome, world and effects of a handler's run. *)
Definition result_of {W : Type} (r : Outcome unit * W * list UiEvent)
  : Outcome unit := fst (fst r).
Definition world_of {W : Type} (r : Outcome unit * W * list UiEvent) : W :=
  snd (fst r).
Definition effects_of {W : Type} (r : Outcome unit * W * list UiEvent)
  : list UiEvent := snd r.

Definition core_events (tr : list UiEvent) : list Event :=
  flat_map (fun e => match e with Core c => [c] | _ => [] end) tr.

Section Commands.

Context {W : Type} (host : Host W).
Variable baseUrl : string.

(** Handler of [happySessions.killSession]; [result] is what the modal
    question resolves with. *)
Definition killSessionCommand (fuel : nat) (item : Item)
    (result : option string) (w : W) : Outcome unit * W * list UiEvent :=
  match item with
  | Some (Some session) =>
      let sessionId := slice0 8 (claudeSessionId session) in
      let question :=
        UiConfirm ("Are you sure you want to kill session " +++ sessionId
                   +++ "?") "Kill Session" in
      if confirmed result then
        match Executor.killSession host baseUrl fuel session w with
        | (Ok _, w1, t1) =>
            (Ok tt, w1,
             question :: map Core t1
             ++ [Core (EvInfo ("Session " +++ sessionId +++ " killed"));
                 UiRefresh])
        | (Throw message, w1, t1) =>
            (Ok tt, w1,
             question :: map Core t1
             ++ [UiError ("Failed to kill session: " +++ message)])
        | (OutOfFuel, w1, t1) => (OutOfFuel, w1, question :: map Core t1)
        end
      else (Ok tt, w, [question])
  | _ => (Ok tt, w, [UiError "No session selected"])
  end.

End Commands.
End Extension.

(** ** The tree of sessions (tree/provider.ts) *)
Module Tree.

(** A session as the tree reads it: the record above and [lastSeenAt]. *)
Record Row : Type := mkRow {
  session : LocalSession;
  lastSeenAt : Z
}.

(** [array.sort(compare)]: the sort of the language is stable, so with a
    comparator that orders by a key its result is the one list that is
    sorted and keeps equal elements in their order; inserting from the
    right, each element before its equals, computes it. *)
Section Sort.

Context {A : Type}.
Variable compare : A -> A -> Z.

Fixpoint insert (x : A) (l : list A) : list A :=
  match l with
  | [] => [x]
  | y :: l' => if compare x y <=? 0 then x :: l else y :: insert x l'
  end.

Definition sort (l : list A) : list A := fold_right insert [] l.

End Sort.

(** [(a, b) => key(b) - key(a)]: largest key first. *)
Definition descending {A : Type} (key : A -> Z) : A -> A -> Z :=
  fun a b => key b - key a.

(** [formatLastSeen(timestamp)], [now] being what [Date.now()] returns;
    [Math.floor] of a quotient is the division of [Z]. *)
Definition formatLastSeen (now timestamp : Z) : string :=
  let diff := now - timestamp in
  let seconds := diff / 1000 in
  if seconds <? 60 then show_num seconds +++ "s ago"
  else if seconds <? 3600 then show_num (seconds / 60) +++ "m ago"
  else if seconds <? 86400 then show_num (seconds / 3600) +++ "h ago"
  else show_num (seconds / 86400) +++ "d ago".

(** The units of [formatLastSeen]: milliseconds and suffix. *)
Definition age_units : list (Z * string) :=
  [(1000, "s ago"); (60000, "m ago"); (3600000, "h ago");
   (86400000, "d ago")].

Inductive TreeElement : Type :=
| DirectoryTreeItem (dirPath : string) (sessions : list Row)
                    (mostRecentTimestamp : Z)
| SessionTreeItem (session : Row)
| EmptyStateItem (now : Z)            (* the "No sessions found" item *)
| ErrorItem (message : string) (now : Z).  (* "Error loading sessions" *)

(** [session.cwd || 'Unknown Directory'] *)
Definition dir_key (r : Row) : string :=
  match str_or_undefined (cwd (session r)) with
  | Some dir => dir
  | None => "Unknown Directory"
  end.

(** [if (!map.has(key)) map.set(key, []); map.get(key).push(r)] on a [Map],
    which keeps its keys in the order they were first set. *)
Fixpoint push_to (key : string) (r : Row) (groups : list (string * list Row))
  : list (string * list Row) :=
  match groups with
  | [] => [(key, [r])]
  | (k, rs) :: rest =>
      if String.eqb k key then (k, rs ++ [r]) :: rest
      else (k, rs) :: push_to key r rest
  end.

(** The loop that groups the sessions by directory. *)
Definition groupByCwd (sessions : list Row) : list (string * list Row) :=
  fold_left (fun groups r => push_to (dir_key r) r groups) sessions [].

(** [Math.max(...dirSessions.map(s => s.lastSeenAt))]; no group is empty,
    so the maximum of no number is never asked for. *)
Definition most_recent (rs : list Row) : Z :=
  match rs with
  | [] => 0
  | r :: rs' => fold_left Z.max (map lastSeenAt rs') (lastSeenAt r)
  end.

(** [(item as any).mostRecentTimestamp || 0] *)
Definition time_of (item : TreeElement) : Z :=
  match item with
  | DirectoryTreeItem _ _ t => num_or (Some t) 0
  | _ => 0
  end.

(** The directory items of [getRootChildren], most recent first. *)
Definition directories (sessions : list Row) : list TreeElement :=
  sort (descending time_of)
    (map (fun g => DirectoryTreeItem (fst g) (snd g) (most_recent (snd g)))
         (groupByCwd sessions)).

(** The sessions shown under an item. *)
Definition sessions_of (item : TreeElement) : list Row :=
  match item with
  | DirectoryTreeItem _ rs _ => rs
  | _ => []
  end.

Section Provider.

Context {W : Type} (host : Host W).

(** [this.apiClient.listSessions({ limit: 100 })], delivering the records
    with their [lastSeenAt]. *)
Variable listSessions100 : M W (list Row).

Definition getRootChildren : M W (list TreeElement) :=
  try_catch
    (sessions <- listSessions100 ;;
     match sessions with
     | [] => t <- ApiClient.now host ;; ret [EmptyStateItem t]
     | _ :: _ => ret (directories sessions)
     end)
    (fun message => t <- ApiClient.now host ;; ret [ErrorItem message t]).

Definition getChildren (element : option TreeElement)
  : M W (list TreeElement) :=
  match element with
  | None => getRootChildren
  | Some (DirectoryTreeItem _ sessions _) =>
      ret (map SessionTreeItem (sort (descending lastSeenAt) sessions))
  | Some _ => ret []
  end.

End Provider.

End Tree.

(** The directory an item stands for. *)
Definition path_of (item : Tree.TreeElement) : option string :=
  match item with
  | Tree.DirectoryTreeItem dirPath _ _ => Some dirPath
  | _ => None
  end.

(** The sessions of a list that belong to a directory, in their order. *)
Definition sessions_in (dirPath : string) (sessions : list Tree.Row)
  : list Tree.Row :=
  filter (fun r => String.eqb (Tree.dir_key r) dirPath) sessions.

(** What the grouping loop keeps true of the groups built from the
    sessions read so far. *)
Definition grouped (sessions : list Tree.Row)
    (groups : list (string * list Tree.Row)) : Prop :=
  NoDup (map fst groups) /\
  (forall k rs, In (k, rs) groups -> rs <> [] /\ rs = sessions_in k sessions) /\
  (forall r, In r sessions -> In (Tree.dir_key r) (map fst groups)) /\
  Permutation (List.concat (map snd groups)) sessions.

(** A listing to run the tree against. *)
Module Listing.

Definition app1 : Tree.Row :=
  Tree.mkRow (mkSession "app-1" "active" (Some "/work/app") (Some 10)
                        None None) 300.
Definition lib1 : Tree.Row :=
  Tree.mkRow (mkSession "lib-1" "terminated" (Some "/work/lib") None
                        None None) 500.
Definition app2 : Tree.Row :=
  Tree.mkRow (mkSession "app-2" "happy-active" (Some "/work/app") (Some 11)
                        (Some "happy-2") None) 400.
Definition stray : Tree.Row :=
  Tree.mkRow (mkSession "stray" "terminated" None None None None) 100.

Definition rows : list Tree.Row := [app1; lib1; app2; stray].

Definition resolves : M Sim.World (list Tree.Row) := ret rows.

Definition fails : M Sim.World (list Tree.Row) :=
  throw "Cannot connect to Happy server at http://127.0.0.1:3005".

End Listing.
(** ** The model at work *)

(** The process goes away between the second and the third poll. *)
Example kill_after_two_pending_polls :
  Executor.killSession Sim.scripted Sim.url 30 Sim.s1
    (Sim.mkWorld 7 Sim.accepted_kill [Sim.seen Sim.s1; Sim.seen Sim.s1]
                 (Sim.seen Sim.s1_gone) (HttpOk tt))
  = (Ok tt,
     Sim.mkWorld 1007 Sim.accepted_kill [] (Sim.seen Sim.s1_gone) (HttpOk tt),
     [EvPostKill "s1-4242-abcdef"
        (Some (mkKillOptions (Some term) (Some 4242))) Sim.accepted_kill;
      EvGetSessions (poll_params "s1-4242-abcdef") (Sim.seen Sim.s1);
      EvSleep 500;
      EvGetSessions (poll_params "s1-4242-abcdef") (Sim.seen Sim.s1);
      EvSleep 500;
      EvGetSessions (poll_params "s1-4242-abcdef") (Sim.seen Sim.s1_gone);
      EvPostUpsert (mkUpsert "s1-4242-abcdef" None None) (HttpOk tt)]).
Proof. reflexivity. Qed.

(** The server is down: the kill fails, the resume goes on. *)
Example resume_with_server_down :
  Executor.resumeSessionInTerminal Sim.scripted Sim.url 30 Sim.s1
    Scenario.server_down
  = (Ok tt, Scenario.server_down,
     [EvInfo "Moving session s1-4242- from phone to VS Code...";
      EvPostKill "s1-4242-abcdef"
        (Some (mkKillOptions (Some term) (Some 4242)))
        (HttpErr "Network Error");
      EvConsoleError "Failed to kill session:" "Network Error";
      EvWarning ("Failed to kill active session: "
                 +++ "Cannot kill session s1-4242-abcdef"
                 +++ ". Attempting to resume anyway.");
      EvCreateTerminal "Claude s1-4242-" (Some "/home/distiller/project");
      EvSendText "claude --resume s1-4242-abcdef";
      EvTerminalShow;
      EvInfo "Resuming session s1-4242- in terminal"]).
Proof. reflexivity. Qed.

(** A session that is not on the phone is resumed directly. *)
Example resume_without_kill :
  Executor.resumeSessionInTerminal Sim.scripted Sim.url 30 Sim.s2
    Scenario.prompt
  = (Ok tt, Scenario.prompt,
     [EvCreateTerminal "Claude s2" None;
      EvSendText "claude --resume s2";
      EvTerminalShow;
      EvInfo "Resuming session s2 in terminal"]).
Proof. reflexivity. Qed.

(** The poll itself is rejected: two lines are logged and the second
    error replaces the first. *)
Example poll_rejected :
  ApiClient.getSession Sim.scripted Sim.url "s1" Scenario.server_down
  = (Throw "Cannot fetch session s1", Scenario.server_down,
     [EvGetSessions (poll_params "s1") (HttpErr "Network Error");
      EvConsoleError "Failed to fetch sessions:" "Network Error";
      EvConsoleError "Failed to fetch session:"
        "Cannot connect to Happy server at http://127.0.0.1:3005"]).
Proof. reflexivity. Qed.

Example timeout_message_10000 :
  timeout_message 10000 = "Polling timeout after 10000ms".
Proof. reflexivity. Qed.

(** ** One step of each client method *)
Section ClientSteps.

Context {W : Type} (host : Host W).
Variable baseUrl : string.

Lemma api_killSession_run (id : string) (opts : option KillOptions) (w : W) :
  ApiClient.killSession host id opts w =
  match axios_post_kill host id opts w with
  | (HttpOk d, w') => (Ok d, w', [EvPostKill id opts (HttpOk d)])
  | (HttpErr m, w') =>
      (Throw ("Cannot kill session " +++ id), w',
       [EvPostKill id opts (HttpErr m);
        EvConsoleError "Failed to kill session:" m])
  end.
Proof.
  unfold ApiClient.killSession, try_catch, bind, ApiClient.client_post_kill.
  destruct (axios_post_kill host id opts w) as [[d|m] w']; reflexivity.
Qed.

Lemma clearHappyMetadata_run (id : string) (w : W) :
  ApiClient.clearHappyMetadata host id w =
  match axios_post_upsert host (mkUpsert id None None) w with
  | (HttpOk d, w') =>
      (Ok d, w', [EvPostUpsert (mkUpsert id None None) (HttpOk d)])
  | (HttpErr m, w') =>
      (Throw ("Cannot detach session " +++ id +++ " from Happy"), w',
       [EvPostUpsert (mkUpsert id None None) (HttpErr m);
        EvConsoleError "Failed to clear Happy metadata:" m])
  end.
Proof.
  unfold ApiClient.clearHappyMetadata, try_catch, bind,
    ApiClient.client_post_upsert.
  destruct (axios_post_upsert host _ w) as [[d|m] w']; reflexivity.
Qed.

Lemma listSessions_run (params : option ListOptions) (w : W) :
  ApiClient.listSessions host baseUrl params w =
  match axios_get_sessions host params w with
  | (HttpOk d, w') =>
      (Ok (list_or_empty d), w', [EvGetSessions params (HttpOk d)])
  | (HttpErr m, w') =>
      (Throw ("Cannot connect to Happy server at " +++ baseUrl), w',
       [EvGetSessions params (HttpErr m);
        EvConsoleError "Failed to fetch sessions:" m])
  end.
Proof.
  unfold ApiClient.listSessions, try_catch, bind,
    ApiClient.client_get_sessions.
  destruct (axios_get_sessions host params w) as [[d|m] w']; reflexivity.
Qed.

Lemma getSession_run (id : string) (w : W) :
  ApiClient.getSession host baseUrl id w =
  match axios_get_sessions host (poll_params id) w with
  | (HttpOk d, w') =>
      (Ok (match list_or_empty d with s :: _ => Some s | [] => None end),
       w', [EvGetSessions (poll_params id) (HttpOk d)])
  | (HttpErr m, w') =>
      (Throw ("Cannot fetch session " +++ id), w',
       [EvGetSessions (poll_params id) (HttpErr m);
        EvConsoleError "Failed to fetch sessions:" m;
        EvConsoleError "Failed to fetch session:"
          ("Cannot connect to Happy server at " +++ baseUrl)])
  end.
Proof.
  unfold ApiClient.getSession, try_catch, bind.
  fold (poll_params id). rewrite listSessions_run.
  destruct (axios_get_sessions host (poll_params id) w) as [[d|m] w'];
    reflexivity.
Qed.

(** One turn of the [while] loop. *)
Lemma pollLoop_step (fuel : nat) (id : string) (p : LocalSession -> bool)
    (timeout interval startTime : Z) (w : W) :
  ApiClient.pollLoop host baseUrl (S fuel) id p timeout interval startTime w =
  if Date_now host w - startTime <? timeout then
    match axios_get_sessions host (poll_params id) w with
    | (HttpErr m, w') =>
        (Throw ("Cannot fetch session " +++ id), w',
         [EvGetSessions (poll_params id) (HttpErr m);
          EvConsoleError "Failed to fetch sessions:" m;
          EvConsoleError "Failed to fetch session:"
            ("Cannot connect to Happy server at " +++ baseUrl)])
    | (HttpOk d, w') =>
        match list_or_empty d with
        | [] =>
            (Throw (not_found_message id), w',
             [EvGetSessions (poll_params id) (HttpOk d)])
        | s :: _ =>
            if p s then
              (Ok s, w', [EvGetSessions (poll_params id) (HttpOk d)])
            else
              let r := ApiClient.pollLoop host baseUrl fuel id p timeout
                         interval startTime (setTimeout host interval w') in
              (outcome r, world r,
               EvGetSessions (poll_params id) (HttpOk d)
                 :: EvSleep interval :: events r)
        end
    end
  else (Throw (timeout_message timeout), w, []).
Proof.
  cbn [ApiClient.pollLoop]. unfold bind at 1. unfold ApiClient.now at 1.
  destruct (Date_now host w - startTime <? timeout); [|reflexivity].
  unfold bind at 1. rewrite getSession_run.
  destruct (axios_get_sessions host (poll_params id) w) as [[d|m] w'];
    [|reflexivity].
  destruct (list_or_empty d) as [|s rest]; [reflexivity|].
  destruct (p s); [reflexivity|].
  unfold bind, ApiClient.sleep, outcome, world, events.
  destruct (ApiClient.pollLoop host baseUrl fuel id p timeout interval
              startTime (setTimeout host interval w')) as [[o w2] t2].
  reflexivity.
Qed.

Lemma pollSession_run (fuel : nat) (id : string) (p : LocalSession -> bool)
    (options : PollOptions) (w : W) :
  ApiClient.pollSession host baseUrl fuel id p options w =
  ApiClient.pollLoop host baseUrl fuel id p
    (num_or (timeout options) 10000) (num_or (interval options) 500)
    (Date_now host w) w.
Proof.
  unfold ApiClient.pollSession, bind, ApiClient.now.
  destruct (ApiClient.pollLoop host baseUrl fuel id p _ _ _ w) as [[o w'] t].
  reflexivity.
Qed.

End ClientSteps.

(** ** The order of the requests *)

Lemma requests_app (a b : list Event) :
  requests (a ++ b) = requests a ++ requests b.
Proof.
  induction a as [|e a IH]; simpl; [reflexivity|].
  destruct (request_of e); simpl; rewrite IH; reflexivity.
Qed.

Lemma polling_no_terminate (ok : bool) (rs : list Request) :
  polling ok rs -> filter is_terminate rs = [].
Proof. induction 1; simpl; auto. Qed.

Lemma polling_no_clear (ok : bool) (rs : list Request) :
  polling ok rs -> filter is_clear rs = [].
Proof. induction 1; simpl; auto. Qed.

(** Nothing follows a failed poll, and once a poll saw the process cleared
    the loop is over. *)
Lemma polling_split (ok : bool) (rs : list Request) :
  polling ok rs ->
  forall pre r post, rs = pre ++ r :: post ->
    (failed r = true -> post = []) /\
    (r = Poll Cleared -> post = [] /\ ok = true) /\
    (forall b, r <> Clear b).
Proof.
  induction 1 as [| |o Ho|ok rs Hp IH]; intros pre r post E.
  - destruct pre as [|x [|y pre]]; simpl in E; try discriminate.
    injection E as <- <-. split; [reflexivity|]. split; [auto|discriminate].
  - destruct pre; discriminate.
  - destruct pre as [|x [|y pre]]; simpl in E; try discriminate.
    injection E as <- <-. split; [reflexivity|]. split; [|discriminate].
    intros E. rewrite E in Ho. discriminate.
  - destruct pre as [|x pre]; simpl in E.
    + injection E as <- <-. repeat split; try discriminate.
    + injection E as _ E. exact (IH _ _ _ E).
Qed.

(** When the loop returned, its last request is the poll that saw the
    process cleared. *)
Lemma polling_true_last (rs : list Request) :
  polling true rs -> exists rs', rs = rs' ++ [Poll Cleared].
Proof.
  intros H. remember true as ok eqn:E. induction H; try discriminate.
  - exists []. reflexivity.
  - destruct (IHpolling E) as [rs' ->]. exists (Poll Pending :: rs').
    reflexivity.
Qed.

Lemma app_cons_snoc {A : Type} (pre post l : list A) (x y : A) :
  pre ++ x :: post = l ++ [y] ->
  (post = [] /\ pre = l /\ x = y) \/
  (exists post', post = post' ++ [y] /\ l = pre ++ x :: post').
Proof.
  destruct post as [|p post] using rev_ind.
  - intros E. apply app_inj_tail in E. left. tauto.
  - clear IHpost. intros E. right.
    change (pre ++ x :: post ++ [p]) with (pre ++ (x :: post) ++ [p]) in E.
    rewrite app_assoc in E. apply app_inj_tail in E. destruct E as [<- <-].
    exists post. auto.
Qed.

Lemma cons_split {A : Type} (pre : list A) (x : A) (l : list A) (r : A)
    (post : list A) :
  x :: l = pre ++ r :: post ->
  (pre = [] /\ x = r /\ l = post) \/
  (exists pre', pre = x :: pre' /\ l = pre' ++ r :: post).
Proof.
  destruct pre as [|p pre]; simpl; intros E; injection E as -> ->; eauto.
Qed.

Lemma signalled_polling_strict (ok : bool) (rs : list Request) :
  polling ok rs -> strict_sequence (Terminate true :: rs).
Proof.
  intros Hp. unfold strict_sequence, count. simpl.
  rewrite (polling_no_terminate _ _ Hp), (polling_no_clear _ _ Hp). simpl.
  split; [lia|]. split; [lia|]. split; [|split].
  - intros pre o post E. apply cons_split in E.
    destruct E as [(_ & E & _)|(pre' & -> & _)]; [discriminate|eauto].
  - intros pre b post E. apply cons_split in E.
    destruct E as [(_ & E & _)|(pre' & -> & E)]; [discriminate|].
    destruct (polling_split _ _ Hp _ _ _ E) as (_ & _ & Hn).
    destruct (Hn b eq_refl).
  - intros pre r post E Hf. apply cons_split in E.
    destruct E as [(_ & <- & _)|(pre' & -> & E)]; [discriminate|].
    destruct (polling_split _ _ Hp _ _ _ E) as (Hpost & _ & _). auto.
Qed.

Lemma workflow_strict (rs : list Request) :
  workflow rs -> strict_sequence rs.
Proof.
  destruct 1 as [| |rs Hp|rs Hp|rs b Hp];
    try (eapply signalled_polling_strict; eassumption).
  - unfold strict_sequence, count. simpl. split; [lia|]. split; [lia|].
    split; [|split]; intros; destruct pre; discriminate.
  - unfold strict_sequence, count. simpl. split; [lia|]. split; [lia|].
    split; [|split].
    + intros [|x [|y pre]] o post E; discriminate.
    + intros [|x [|y pre]] o post E; discriminate.
    + intros [|x [|y pre]] r post E; try discriminate.
      injection E as _ <-. reflexivity.
  - unfold strict_sequence, count. simpl. rewrite !filter_app.
    rewrite (polling_no_terminate _ _ Hp), (polling_no_clear _ _ Hp).
    simpl. split; [lia|]. split; [lia|]. split; [|split].
    + intros pre o post E. apply cons_split in E.
      destruct E as [(_ & E & _)|(pre' & -> & _)]; [discriminate|eauto].
    + intros pre b' post E. apply cons_split in E.
      destruct E as [(_ & E & _)|(pre' & -> & E)]; [discriminate|].
      symmetry in E. apply app_cons_snoc in E.
      destruct E as [(-> & -> & _)|(post' & _ & E)].
      * split; [reflexivity|].
        destruct (polling_true_last _ Hp) as [rs' ->].
        exists (Terminate true :: rs'). reflexivity.
      * destruct (polling_split _ _ Hp _ _ _ E) as (_ & _ & Hn).
        destruct (Hn b' eq_refl).
    + intros pre r post E Hf. apply cons_split in E.
      destruct E as [(_ & <- & _)|(pre' & -> & E)]; [discriminate|].
      symmetry in E. apply app_cons_snoc in E.
      destruct E as [(-> & _ & _)|(post' & -> & E)]; [reflexivity|].
      destruct (polling_split _ _ Hp _ _ _ E) as (Hpost & _ & _).
      rewrite (Hpost Hf) in E.
      destruct (polling_true_last _ Hp) as [rs' E'].
      rewrite E' in E. apply app_inj_tail in E. destruct E as [_ <-].
      discriminate.
Qed.

(** ** One run of each executor method *)
Section ExecutorSteps.

Context {W : Type} (host : Host W).
Variable baseUrl : string.

Lemma pollLoop_polling (id : string) (timeout interval startTime : Z)
    (fuel : nat) :
  forall w : W,
    polling
      (is_ok (outcome (ApiClient.pollLoop host baseUrl fuel id
                         Executor.pid_cleared timeout interval startTime w)))
      (requests (events (ApiClient.pollLoop host baseUrl fuel id
                           Executor.pid_cleared timeout interval startTime w))).
Proof.
  induction fuel as [|fuel IH]; intros w.
  - apply polling_spent.
  - rewrite pollLoop_step.
    destruct (Date_now host w - startTime <? timeout); [|apply polling_spent].
    destruct (axios_get_sessions host (poll_params id) w) as [[d|m] w'].
    + destruct (list_or_empty d) as [|s rest] eqn:Hd.
      * cbn. unfold observe. rewrite Hd. apply polling_failed. reflexivity.
      * destruct (Executor.pid_cleared s) eqn:Hs.
        -- cbn. unfold observe. rewrite Hd, Hs. apply polling_cleared.
        -- cbn. unfold observe. rewrite Hd, Hs. apply polling_pending, IH.
    + cbn. apply polling_failed. reflexivity.
Qed.

Lemma exec_killSessionSilently_run (fuel : nat) (s : LocalSession) (w : W) :
  Executor.killSessionSilently host baseUrl fuel s w =
  if truthy_num (pid s) then
    match axios_post_kill host (claudeSessionId s) (kill_body s) w with
    | (HttpErr m, w1) =>
        (Throw (kill_failed_message (claudeSessionId s)), w1,
         [EvPostKill (claudeSessionId s) (kill_body s) (HttpErr m);
          EvConsoleError "Failed to kill session:" m])
    | (HttpOk d, w1) =>
        match ApiClient.pollLoop host baseUrl fuel (claudeSessionId s)
                Executor.pid_cleared 10000 500 (Date_now host w1) w1 with
        | (Ok _, w2, t2) =>
            match axios_post_upsert host (clear_body s) w2 with
            | (HttpOk u, w3) =>
                (Ok u, w3,
                 EvPostKill (claudeSessionId s) (kill_body s) (HttpOk d)
                   :: t2 ++ [EvPostUpsert (clear_body s) (HttpOk u)])
            | (HttpErr m, w3) =>
                (Throw (clear_failed_message (claudeSessionId s)), w3,
                 EvPostKill (claudeSessionId s) (kill_body s) (HttpOk d)
                   :: t2
                   ++ [EvPostUpsert (clear_body s) (HttpErr m);
                       EvConsoleError "Failed to clear Happy metadata:" m])
            end
        | (Throw e, w2, t2) =>
            (Throw e, w2,
             EvPostKill (claudeSessionId s) (kill_body s) (HttpOk d) :: t2)
        | (OutOfFuel, w2, t2) =>
            (OutOfFuel, w2,
             EvPostKill (claudeSessionId s) (kill_body s) (HttpOk d) :: t2)
        end
    end
  else (Throw "Session has no PID to kill", w, []).
Proof.
  unfold Executor.killSessionSilently.
  destruct (truthy_num (pid s)); [|reflexivity]. cbn [negb].
  unfold bind at 1. fold (kill_body s). rewrite api_killSession_run.
  destruct (axios_post_kill host _ _ w) as [[d|m] w1]; [|reflexivity].
  unfold bind at 1. rewrite pollSession_run. cbn [timeout interval num_or
    truthy_num Z.eqb negb].
  destruct (ApiClient.pollLoop host baseUrl fuel _ _ _ _ _ w1)
    as [[[s'|e|] w2] t2]; try reflexivity.
  rewrite clearHappyMetadata_run. fold (clear_body s).
  destruct (axios_post_upsert host _ w2) as [[u|m] w3]; reflexivity.
Qed.

Lemma exec_killSession_run (fuel : nat) (s : LocalSession) (w : W) :
  Executor.killSession host baseUrl fuel s w =
  if truthy_num (pid s) then
    match axios_post_kill host (claudeSessionId s) (kill_body s) w with
    | (HttpErr m, w1) =>
        (Throw (kill_failed_message (claudeSessionId s)), w1,
         [EvPostKill (claudeSessionId s) (kill_body s) (HttpErr m);
          EvConsoleError "Failed to kill session:" m])
    | (HttpOk d, w1) =>
        match ApiClient.pollLoop host baseUrl fuel (claudeSessionId s)
                Executor.pid_cleared 10000 500 (Date_now host w1) w1 with
        | (Ok _, w2, t2) =>
            if truthy_str (happySessionId s) then
              match axios_post_upsert host (clear_body s) w2 with
              | (HttpOk u, w3) =>
                  (Ok u, w3,
                   EvPostKill (claudeSessionId s) (kill_body s) (HttpOk d)
                     :: t2 ++ [EvPostUpsert (clear_body s) (HttpOk u)])
              | (HttpErr m, w3) =>
                  (Throw (clear_failed_message (claudeSessionId s)), w3,
                   EvPostKill (claudeSessionId s) (kill_body s) (HttpOk d)
                     :: t2 ++ [EvPostUpsert (clear_body s) (HttpErr m);
                               EvConsoleError
                                 "Failed to clear Happy metadata:" m])
              end
            else
              (Ok tt, w2,
               EvPostKill (claudeSessionId s) (kill_body s) (HttpOk d)
                 :: t2 ++ [])
        | (Throw e, w2, t2) =>
            (Throw e, w2,
             EvPostKill (claudeSessionId s) (kill_body s) (HttpOk d) :: t2)
        | (OutOfFuel, w2, t2) =>
            (OutOfFuel, w2,
             EvPostKill (claudeSessionId s) (kill_body s) (HttpOk d) :: t2)
        end
    end
  else (Throw "Session has no PID", w, []).
Proof.
  unfold Executor.killSession.
  destruct (truthy_num (pid s)); [|reflexivity]. cbn [negb].
  unfold bind at 1. fold (kill_body s). rewrite api_killSession_run.
  destruct (axios_post_kill host _ _ w) as [[d|m] w1]; [|reflexivity].
  unfold bind at 1. rewrite pollSession_run. cbn [timeout interval num_or
    truthy_num Z.eqb negb].
  destruct (ApiClient.pollLoop host baseUrl fuel _ _ _ _ _ w1)
    as [[[s'|e|] w2] t2]; try reflexivity.
  destruct (truthy_str (happySessionId s)); [|reflexivity].
  rewrite clearHappyMetadata_run. fold (clear_body s).
  destruct (axios_post_upsert host _ w2) as [[u|m] w3]; reflexivity.
Qed.

End ExecutorSteps.

(** ** The workflow of the two callers *)
Section Workflow.

Context {W : Type} (host : Host W).
Variable baseUrl : string.

Lemma killSessionSilently_workflow (fuel : nat) (s : LocalSession) (w : W) :
  workflow
    (requests (events (Executor.killSessionSilently host baseUrl fuel s w))).
Proof.
  rewrite exec_killSessionSilently_run.
  destruct (truthy_num (pid s)); [|apply workflow_none].
  destruct (axios_post_kill host _ _ w) as [[d|m] w1];
    [|apply workflow_rejected].
  pose proof (pollLoop_polling host baseUrl (claudeSessionId s) 10000 500
                (Date_now host w1) fuel w1) as Hp.
  destruct (ApiClient.pollLoop host baseUrl fuel _ _ _ _ _ w1)
    as [[[s'|e|] w2] t2]; cbn in Hp.
  - destruct (axios_post_upsert host _ w2) as [[u|m] w3];
      cbn; rewrite requests_app; cbn; apply workflow_cleared; exact Hp.
  - cbn. apply workflow_unpolled. exact Hp.
  - cbn. apply workflow_unpolled. exact Hp.
Qed.

Lemma killSession_workflow (fuel : nat) (s : LocalSession) (w : W) :
  workflow (requests (events (Executor.killSession host baseUrl fuel s w))).
Proof.
  rewrite exec_killSession_run.
  destruct (truthy_num (pid s)); [|apply workflow_none].
  destruct (axios_post_kill host _ _ w) as [[d|m] w1];
    [|apply workflow_rejected].
  pose proof (pollLoop_polling host baseUrl (claudeSessionId s) 10000 500
                (Date_now host w1) fuel w1) as Hp.
  destruct (ApiClient.pollLoop host baseUrl fuel _ _ _ _ _ w1)
    as [[[s'|e|] w2] t2]; cbn in Hp.
  - destruct (truthy_str (happySessionId s)).
    + destruct (axios_post_upsert host _ w2) as [[u|m] w3];
        cbn; rewrite requests_app; cbn; apply workflow_cleared; exact Hp.
    + cbn. rewrite app_nil_r. apply workflow_polled. exact Hp.
  - cbn. apply workflow_unpolled. exact Hp.
  - cbn. apply workflow_unpolled. exact Hp.
Qed.

(** C1. In every run of [killSessionSilently] and of [killSession] the
    registry requests come in strict sequence and each step at most once:
    at most one terminate and at most one metadata-clear request are
    issued; every poll comes after the (accepted) terminate request; a
    metadata-clear request is issued only right after a poll that saw the
    pid null or the status terminated, and it is the last request; and no
    request follows a failed one. *)
Theorem reconcile_strict_sequence (fuel : nat) (s : LocalSession) (w : W) :
  strict_sequence
    (requests (events (Executor.killSessionSilently host baseUrl fuel s w)))
  /\
  strict_sequence
    (requests (events (Executor.killSession host baseUrl fuel s w))).
Proof.
  split; apply workflow_strict.
  - apply killSessionSilently_workflow.
  - apply killSession_workflow.
Qed.

End Workflow.

(** ** Sessions without a process *)
Section NoPid.

Context {W : Type} (host : Host W).
Variable baseUrl : string.

(** C2. For a session whose pid is null, [killSessionSilently] and
    [killSession] throw at once ("Session has no PID to kill", "Session has
    no PID"): the world is untouched and no effect at all is performed, so
    no terminate, poll or metadata-clear request is made. *)
Theorem absent_pid_fails_before_any_request
    (fuel : nat) (s : LocalSession) (w : W) :
  pid s = None ->
  Executor.killSessionSilently host baseUrl fuel s w
    = (Throw "Session has no PID to kill", w, []) /\
  Executor.killSession host baseUrl fuel s w
    = (Throw "Session has no PID", w, []).
Proof.
  intros Hpid.
  rewrite exec_killSessionSilently_run, exec_killSession_run, Hpid.
  split; reflexivity.
Qed.

End NoPid.

Lemma absent_pid_fails_before_any_request_witness :
  pid Sim.s2 = None /\
  Executor.killSessionSilently Sim.scripted Sim.url 30 Sim.s2
      (Sim.mkWorld 0 Sim.accepted_kill [] (Sim.seen Sim.s2) (HttpOk tt))
    = (Throw "Session has no PID to kill",
       Sim.mkWorld 0 Sim.accepted_kill [] (Sim.seen Sim.s2) (HttpOk tt), []) /\
  Executor.killSession Sim.scripted Sim.url 30 Sim.s2
      (Sim.mkWorld 0 Sim.accepted_kill [] (Sim.seen Sim.s2) (HttpOk tt))
    = (Throw "Session has no PID",
       Sim.mkWorld 0 Sim.accepted_kill [] (Sim.seen Sim.s2) (HttpOk tt), []).
Proof.
  split; [reflexivity|].
  apply (absent_pid_fails_before_any_request Sim.scripted Sim.url 30 Sim.s2).
  reflexivity.
Defined.

(** ** A registry that never clears the pid *)
Section StuckRegistry.

Context {W : Type} (host : Host W).
Variable baseUrl : string.

Hypothesis Hstuck : never_clears host.
Hypothesis Hclock : instant_polls host.

(** With [n] intervals of the budget left the loop polls [n] times and
    then gives up. *)
Lemma pollLoop_stuck (id : string) (startTime : Z) (n : nat) :
  forall (fuel : nat) (w : W),
    Date_now host w - startTime = 10000 - 500 * Z.of_nat n ->
    (n < fuel)%nat ->
    let r := ApiClient.pollLoop host baseUrl fuel id Executor.pid_cleared
               10000 500 startTime w in
    outcome r = Throw "Polling timeout after 10000ms" /\
    count_events is_get (events r) = n /\
    requests (events r) = repeat (Poll Pending) n /\
    Date_now host (world r) - startTime = 10000.
Proof.
  destruct Hclock as [Hget Hsleep].
  induction n as [|n IH]; intros fuel w Ht Hfuel;
    (destruct fuel as [|fuel]; [lia|]); cbv zeta; rewrite pollLoop_step.
  - replace (Date_now host w - startTime <? 10000) with false
      by (symmetry; apply Z.ltb_ge; lia).
    repeat split. cbn. lia.
  - replace (Date_now host w - startTime <? 10000) with true
      by (symmetry; apply Z.ltb_lt; lia).
    destruct (Hstuck (poll_params id) w)
      as (body & s & rest & w' & E & Hb & Hs).
    pose proof (Hget (poll_params id) w) as Hg.
    rewrite E in *. cbn [snd] in Hg. rewrite Hb, Hs.
    specialize (IH fuel (setTimeout host 500 w')).
    cbv zeta in IH. destruct IH as (Ho & Hc & Hr & Hw).
    + rewrite Hsleep, Hg. lia.
    + lia.
    + cbn [outcome events world fst snd] in *.
      split; [exact Ho|]. split; [|split].
      * unfold count_events in *. cbn. rewrite Hc. reflexivity.
      * cbn. unfold observe. rewrite Hb, Hs, Hr. reflexivity.
      * exact Hw.
Qed.

(** C3. If the registry accepts the terminate call but every poll still
    shows the pid set and a status other than terminated, then, polls being
    instantaneous and every sleep lasting exactly its 500 ms, both
    procedures throw "Polling timeout after 10000ms" (given fuel for the 21
    tests of the loop condition) after exactly 20 [getSession] calls, when
    the clock shows 10000 ms more than it did once the terminate call had
    returned, and no metadata-clear request is made. *)
Theorem stuck_registry_times_out_after_20_polls
    (fuel : nat) (s : LocalSession) (w : W) :
  truthy_num (pid s) = true ->
  accepts_terminate host ->
  (21 <= fuel)%nat ->
  (outcome (Executor.killSessionSilently host baseUrl fuel s w)
     = Throw "Polling timeout after 10000ms" /\
   count_events is_get
     (events (Executor.killSessionSilently host baseUrl fuel s w)) = 20%nat /\
   count is_clear
     (requests (events (Executor.killSessionSilently host baseUrl fuel s w)))
     = 0%nat /\
   Date_now host (world (Executor.killSessionSilently host baseUrl fuel s w))
     = Date_now host
         (snd (axios_post_kill host (claudeSessionId s) (kill_body s) w))
       + 10000) /\
  (outcome (Executor.killSession host baseUrl fuel s w)
     = Throw "Polling timeout after 10000ms" /\
   count_events is_get
     (events (Executor.killSession host baseUrl fuel s w)) = 20%nat /\
   count is_clear
     (requests (events (Executor.killSession host baseUrl fuel s w)))
     = 0%nat /\
   Date_now host (world (Executor.killSession host baseUrl fuel s w))
     = Date_now host
         (snd (axios_post_kill host (claudeSessionId s) (kill_body s) w))
       + 10000).
Proof.
  intros Hpid Hkill Hfuel.
  rewrite exec_killSessionSilently_run, exec_killSession_run, Hpid.
  destruct (Hkill (claudeSessionId s) (kill_body s) w) as (d & w1 & E).
  rewrite E.
  destruct (pollLoop_stuck (claudeSessionId s) (Date_now host w1) 20 fuel w1)
    as (Ho & Hc & Hr & Hw); [lia|lia|].
  destruct (ApiClient.pollLoop host baseUrl fuel _ _ _ _ _ w1)
    as [[o w2] t2].
  cbn [outcome events world fst snd] in *. subst o.
  unfold count_events, count in *. cbn. rewrite Hc, Hr.
  repeat split; lia.
Qed.

End StuckRegistry.

Lemma stuck_registry_times_out_after_20_polls_witness :
  (outcome (Executor.killSessionSilently (Sim.constant Sim.s1) Sim.url 21
              Sim.s1 0)
     = Throw "Polling timeout after 10000ms" /\
   count_events is_get
     (events (Executor.killSessionSilently (Sim.constant Sim.s1) Sim.url 21
                Sim.s1 0)) = 20%nat /\
   count is_clear
     (requests (events (Executor.killSessionSilently (Sim.constant Sim.s1)
                          Sim.url 21 Sim.s1 0))) = 0%nat /\
   world (Executor.killSessionSilently (Sim.constant Sim.s1) Sim.url 21
            Sim.s1 0) = 10000) /\
  (outcome (Executor.killSession (Sim.constant Sim.s1) Sim.url 21 Sim.s1 0)
     = Throw "Polling timeout after 10000ms" /\
   count_events is_get
     (events (Executor.killSession (Sim.constant Sim.s1) Sim.url 21
                Sim.s1 0)) = 20%nat /\
   count is_clear
     (requests (events (Executor.killSession (Sim.constant Sim.s1) Sim.url 21
                          Sim.s1 0))) = 0%nat /\
   world (Executor.killSession (Sim.constant Sim.s1) Sim.url 21 Sim.s1 0)
     = 10000).
Proof.
  apply (stuck_registry_times_out_after_20_polls (Sim.constant Sim.s1) Sim.url).
  - intros params w. exists (Some [Sim.s1]), Sim.s1, [], w.
    repeat split.
  - split; intros; reflexivity.
  - reflexivity.
  - intros id body w. eexists. exists w. reflexivity.
  - apply le_n.
Defined.

(** ** A record that vanished *)
Section Vanished.

Context {W : Type} (host : Host W).
Variable baseUrl : string.

(** A poll that finds no record is the last effect of the loop, which
    throws. *)
Lemma pollLoop_missing (id : string) (p : LocalSession -> bool)
    (timeout interval startTime : Z) (fuel : nat) :
  forall (w : W) pre params body post,
    events (ApiClient.pollLoop host baseUrl fuel id p timeout interval
              startTime w)
      = pre ++ EvGetSessions params (HttpOk body) :: post ->
    list_or_empty body = [] ->
    outcome (ApiClient.pollLoop host baseUrl fuel id p timeout interval
               startTime w) = Throw (not_found_message id) /\
    post = [].
Proof.
  induction fuel as [|fuel IH]; intros w pre params body post E Hb.
  - destruct pre; discriminate.
  - rewrite pollLoop_step in *.
    destruct (Date_now host w - startTime <? timeout);
      [|destruct pre; discriminate].
    destruct (axios_get_sessions host (poll_params id) w) as [[d|m] w'].
    + destruct (list_or_empty d) as [|s rest] eqn:Hd.
      * cbn in E. apply cons_split in E.
        destruct E as [(_ & _ & <-)|(pre' & _ & E)]; [split; reflexivity|].
        destruct pre'; discriminate.
      * destruct (p s).
        -- cbn in E. apply cons_split in E.
           destruct E as [(_ & E & _)|(pre' & _ & E)].
           ++ injection E as _ <-. congruence.
           ++ destruct pre'; discriminate.
        -- cbn [events outcome fst snd] in *. apply cons_split in E.
           destruct E as [(_ & E & _)|(pre' & _ & E)].
           ++ injection E as _ <-. congruence.
           ++ apply cons_split in E.
              destruct E as [(_ & E & _)|(pre'' & _ & E)]; [discriminate|].
              exact (IH _ _ _ _ _ E Hb).
    + cbn in E. destruct pre as [|a [|b [|c pre]]]; try discriminate.
      destruct pre; discriminate.
Qed.

Lemma split_in_front {A : Type} (l tail pre post : list A) (e : A) :
  l ++ tail = pre ++ e :: post -> ~ In e tail ->
  exists post', l = pre ++ e :: post'.
Proof.
  intros E Hn. apply app_eq_app in E. destruct E as [x [[E1 E2]|[E1 E2]]].
  - destruct x as [|y x]; cbn in E2.
    + destruct Hn. rewrite <- E2. left. reflexivity.
    + injection E2 as -> _. eauto.
  - destruct Hn. rewrite E2. apply in_or_app. right. left. reflexivity.
Qed.

(** C4. In a run of either procedure, a poll that the registry answers
    without a record makes the run throw "Session <id> not found", and that
    poll is the last effect of the run: no further poll and no
    metadata-clear request follow, whatever polls came before it. *)
Theorem missing_record_fails_at_once (fuel : nat) (s : LocalSession) (w : W)
    (pre post : list Event) (params : option ListOptions)
    (body : SessionsBody) :
  list_or_empty body = [] ->
  (events (Executor.killSessionSilently host baseUrl fuel s w)
     = pre ++ EvGetSessions params (HttpOk body) :: post ->
   outcome (Executor.killSessionSilently host baseUrl fuel s w)
     = Throw ("Session " +++ claudeSessionId s +++ " not found") /\
   post = []) /\
  (events (Executor.killSession host baseUrl fuel s w)
     = pre ++ EvGetSessions params (HttpOk body) :: post ->
   outcome (Executor.killSession host baseUrl fuel s w)
     = Throw ("Session " +++ claudeSessionId s +++ " not found") /\
   post = []).
Proof.
  intros Hb.
  rewrite exec_killSessionSilently_run, exec_killSession_run.
  destruct (truthy_num (pid s));
    [|split; intros E; destruct pre; discriminate].
  destruct (axios_post_kill host _ _ w) as [[d|m] w1].
  2:{ split; intros E; destruct pre as [|a [|b [|c pre]]]; discriminate. }
  pose proof (pollLoop_missing (claudeSessionId s) Executor.pid_cleared
                10000 500 (Date_now host w1) fuel w1) as Hm.
  destruct (ApiClient.pollLoop host baseUrl fuel _ _ _ _ _ w1)
    as [[o w2] t2].
  cbn [events outcome fst snd] in Hm.
  assert (Hfront : forall (tail : list Event) pre',
             ~ In (EvGetSessions params (HttpOk body)) tail ->
             t2 ++ tail = pre' ++ EvGetSessions params (HttpOk body) :: post ->
             o = Throw (not_found_message (claudeSessionId s))).
  { intros tail pre' Hn E. apply split_in_front in E; [|exact Hn].
    destruct E as [post' E]. exact (proj1 (Hm _ _ _ _ E Hb)). }
  assert (Hcons : forall (o' : Outcome unit) (e : Event) (w' : W) tl,
             is_get e = false ->
             events (o', w', e :: tl)
               = pre ++ EvGetSessions params (HttpOk body) :: post ->
             exists pre',
               tl = pre' ++ EvGetSessions params (HttpOk body) :: post).
  { intros o' e w' tl He E. cbn in E. apply cons_split in E.
    destruct E as [(_ & -> & _)|(pre' & _ & E)]; [discriminate|eauto]. }
  destruct o as [s'|e|].
  - split.
    + destruct (axios_post_upsert host _ w2) as [[u|m] w3]; intros E;
        apply Hcons in E; try reflexivity; destruct E as [pre' E];
        apply Hfront in E; try discriminate;
        cbn; intuition discriminate.
    + destruct (truthy_str (happySessionId s)).
      * destruct (axios_post_upsert host _ w2) as [[u|m] w3]; intros E;
          apply Hcons in E; try reflexivity; destruct E as [pre' E];
          apply Hfront in E; try discriminate;
          cbn; intuition discriminate.
      * intros E. apply Hcons in E; [|reflexivity]. destruct E as [pre' E].
        apply Hfront in E; [discriminate|]. intros [].
  - split; intros E; (apply Hcons in E; [|reflexivity]);
      destruct E as [pre' E]; destruct (Hm _ _ _ _ E Hb) as [Ho ->];
      injection Ho as ->; split; reflexivity.
  - split; intros E; (apply Hcons in E; [|reflexivity]);
      destruct E as [pre' E]; destruct (Hm _ _ _ _ E Hb) as [Ho _];
      discriminate.
Qed.

End Vanished.

Lemma missing_record_fails_at_once_witness :
  outcome (Executor.killSessionSilently Sim.scripted Sim.url 30 Sim.s1
             Scenario.vanishing)
    = Throw "Session s1-4242-abcdef not found" /\
  outcome (Executor.killSession Sim.scripted Sim.url 30 Sim.s1
             Scenario.vanishing)
    = Throw "Session s1-4242-abcdef not found".
Proof.
  destruct (missing_record_fails_at_once Sim.scripted Sim.url 30 Sim.s1
              Scenario.vanishing
              (removelast
                 (events (Executor.killSession Sim.scripted Sim.url 30 Sim.s1
                            Scenario.vanishing)))
              [] (poll_params (claudeSessionId Sim.s1)) (Some []))
    as [Hsilent Hkill].
  - reflexivity.
  - split; [apply Hsilent|apply Hkill]; reflexivity.
Defined.

(** ** A process that is gone at the first poll *)
Section Prompt.

Context {W : Type} (host : Host W).
Variable baseUrl : string.

Lemma pollLoop_first_poll_cleared (id : string) (fuel : nat) (w w' : W)
    (body : SessionsBody) (s' : LocalSession) (rest : list LocalSession) :
  axios_get_sessions host (poll_params id) w = (HttpOk body, w') ->
  list_or_empty body = s' :: rest ->
  Executor.pid_cleared s' = true ->
  ApiClient.pollLoop host baseUrl (S fuel) id Executor.pid_cleared 10000 500
    (Date_now host w) w
  = (Ok s', w', [EvGetSessions (poll_params id) (HttpOk body)]).
Proof.
  intros E Hb Hs. rewrite pollLoop_step, Z.sub_diag. cbn [Z.ltb Z.compare].
  rewrite E, Hb, Hs. reflexivity.
Qed.

(** C5, amended. For a session with a truthy pid, if the registry accepts
    the terminate call and the first poll shows the pid null or the status
    terminated, both procedures make exactly one poll and never sleep; they
    resolve when the registry also accepts the metadata-clear request, which
    [killSessionSilently] always issues and [killSession] issues for a
    session with a [happySessionId] only: without one [killSession] resolves
    right after the poll. *)
Theorem cleared_at_first_poll_takes_one_poll
    (fuel : nat) (s : LocalSession) (w w1 w2 : W) (d : KillResponse)
    (body : SessionsBody) (s' : LocalSession) (rest : list LocalSession) :
  truthy_num (pid s) = true ->
  axios_post_kill host (claudeSessionId s) (kill_body s) w = (HttpOk d, w1) ->
  axios_get_sessions host (poll_params (claudeSessionId s)) w1
    = (HttpOk body, w2) ->
  list_or_empty body = s' :: rest ->
  Executor.pid_cleared s' = true ->
  (1 <= fuel)%nat ->
  (count_events is_get
     (events (Executor.killSessionSilently host baseUrl fuel s w)) = 1%nat /\
   count_events is_sleep
     (events (Executor.killSessionSilently host baseUrl fuel s w)) = 0%nat /\
   count_events is_get
     (events (Executor.killSession host baseUrl fuel s w)) = 1%nat /\
   count_events is_sleep
     (events (Executor.killSession host baseUrl fuel s w)) = 0%nat) /\
  (truthy_str (happySessionId s) = false ->
   Executor.killSession host baseUrl fuel s w
   = (Ok tt, w2,
      [EvPostKill (claudeSessionId s) (kill_body s) (HttpOk d);
       EvGetSessions (poll_params (claudeSessionId s)) (HttpOk body)])) /\
  (forall (u : unit) (w3 : W),
      axios_post_upsert host (clear_body s) w2 = (HttpOk u, w3) ->
      Executor.killSessionSilently host baseUrl fuel s w
      = (Ok tt, w3,
         [EvPostKill (claudeSessionId s) (kill_body s) (HttpOk d);
          EvGetSessions (poll_params (claudeSessionId s)) (HttpOk body);
          EvPostUpsert (clear_body s) (HttpOk tt)]) /\
      (truthy_str (happySessionId s) = true ->
       Executor.killSession host baseUrl fuel s w
       = (Ok tt, w3,
          [EvPostKill (claudeSessionId s) (kill_body s) (HttpOk d);
           EvGetSessions (poll_params (claudeSessionId s)) (HttpOk body);
           EvPostUpsert (clear_body s) (HttpOk tt)]))).
Proof.
  intros Hpid Ekill Epoll Hb Hs Hfuel.
  destruct fuel as [|fuel]; [lia|].
  rewrite exec_killSessionSilently_run, exec_killSession_run, Hpid, Ekill.
  rewrite (pollLoop_first_poll_cleared _ _ _ _ _ _ _ Epoll Hb Hs).
  split; [|split].
  - destruct (truthy_str (happySessionId s));
      destruct (axios_post_upsert host (clear_body s) w2) as [[u|m] w3];
      repeat split.
  - intros ->. reflexivity.
  - intros [] w3 ->. split; [reflexivity|]. intros ->. reflexivity.
Qed.

End Prompt.

(** The claim without the amendment fails: the terminate call is accepted
    and the first poll shows the process gone, yet the rejected upsert makes
    both procedures throw. *)
Lemma cleared_at_first_poll_yet_clear_rejected :
  truthy_num (pid Sim.s1) = true /\
  accepted_of
    (fst (axios_post_kill Sim.scripted (claudeSessionId Sim.s1)
            (kill_body Sim.s1) Scenario.clear_rejected)) = true /\
  observe
    (fst (axios_get_sessions Sim.scripted
            (poll_params (claudeSessionId Sim.s1)) Scenario.clear_rejected))
    = Cleared /\
  outcome (Executor.killSessionSilently Sim.scripted Sim.url 30 Sim.s1
             Scenario.clear_rejected)
    = Throw "Cannot detach session s1-4242-abcdef from Happy" /\
  outcome (Executor.killSession Sim.scripted Sim.url 30 Sim.s1
             Scenario.clear_rejected)
    = Throw "Cannot detach session s1-4242-abcdef from Happy".
Proof. repeat split. Qed.

Lemma cleared_at_first_poll_takes_one_poll_witness :
  Executor.killSessionSilently Sim.scripted Sim.url 1 Sim.s1 Scenario.prompt
  = (Ok tt, Scenario.prompt,
     [EvPostKill (claudeSessionId Sim.s1) (kill_body Sim.s1)
        Sim.accepted_kill;
      EvGetSessions (poll_params (claudeSessionId Sim.s1))
        (Sim.seen Sim.s1_gone);
      EvPostUpsert (clear_body Sim.s1) (HttpOk tt)]).
Proof.
  refine (proj1 (proj2 (proj2
    (cleared_at_first_poll_takes_one_poll Sim.scripted Sim.url 1 Sim.s1
       Scenario.prompt Scenario.prompt Scenario.prompt
       (mkKillResponse true "term" 4242) (Some [Sim.s1_gone]) Sim.s1_gone []
       _ _ _ _ _ _)) tt Scenario.prompt _)); reflexivity.
Defined.

(** ** A process that was already gone *)
Section Settled.

Context {W : Type} (host : Host W).
Variable baseUrl : string.

Hypothesis Hkill : accepts_terminate host.
Hypothesis Hgone : always_cleared host.
Hypothesis Hclear : accepts_clear host.

Lemma settled_killSessionSilently (fuel : nat) (s : LocalSession) (w : W) :
  truthy_num (pid s) = true ->
  (1 <= fuel)%nat ->
  outcome (Executor.killSessionSilently host baseUrl fuel s w) = Ok tt /\
  requests (events (Executor.killSessionSilently host baseUrl fuel s w))
    = [Terminate true; Poll Cleared; Clear true].
Proof.
  intros Hpid Hfuel. destruct fuel as [|fuel]; [lia|].
  rewrite exec_killSessionSilently_run, Hpid.
  destruct (Hkill (claudeSessionId s) (kill_body s) w) as (d & w1 & ->).
  destruct (Hgone (poll_params (claudeSessionId s)) w1)
    as (body & s' & rest & w2 & E & Hb & Hs).
  rewrite (pollLoop_first_poll_cleared _ _ _ _ _ _ _ _ _ E Hb Hs).
  destruct (Hclear (clear_body s) w2) as (w3 & ->).
  cbn. unfold observe. rewrite Hb, Hs. split; reflexivity.
Qed.

Lemma settled_killSession (fuel : nat) (s : LocalSession) (w : W) :
  truthy_num (pid s) = true ->
  (1 <= fuel)%nat ->
  outcome (Executor.killSession host baseUrl fuel s w) = Ok tt /\
  requests (events (Executor.killSession host baseUrl fuel s w))
    = if truthy_str (happySessionId s)
      then [Terminate true; Poll Cleared; Clear true]
      else [Terminate true; Poll Cleared].
Proof.
  intros Hpid Hfuel. destruct fuel as [|fuel]; [lia|].
  rewrite exec_killSession_run, Hpid.
  destruct (Hkill (claudeSessionId s) (kill_body s) w) as (d & w1 & ->).
  destruct (Hgone (poll_params (claudeSessionId s)) w1)
    as (body & s' & rest & w2 & E & Hb & Hs).
  rewrite (pollLoop_first_poll_cleared _ _ _ _ _ _ _ _ _ E Hb Hs).
  destruct (truthy_str (happySessionId s)).
  - destruct (Hclear (clear_body s) w2) as (w3 & ->).
    cbn. unfold observe. rewrite Hb, Hs. split; reflexivity.
  - cbn. unfold observe. rewrite Hb, Hs. split; reflexivity.
Qed.

(** C6. Against a registry that shows the process gone and accepts every
    terminate and every metadata-clear request, running either procedure
    twice in a row for the same session (given with its pid) resolves both
    times; the second run sends its terminate and clear requests again and
    both are accepted. *)
Theorem reconcile_twice_succeeds (fuel : nat) (s : LocalSession) (w : W) :
  truthy_num (pid s) = true ->
  (1 <= fuel)%nat ->
  (outcome (Executor.killSessionSilently host baseUrl fuel s w) = Ok tt /\
   outcome (Executor.killSessionSilently host baseUrl fuel s
              (world (Executor.killSessionSilently host baseUrl fuel s w)))
     = Ok tt /\
   requests
     (events (Executor.killSessionSilently host baseUrl fuel s
                (world (Executor.killSessionSilently host baseUrl fuel s w))))
     = [Terminate true; Poll Cleared; Clear true]) /\
  (outcome (Executor.killSession host baseUrl fuel s w) = Ok tt /\
   outcome (Executor.killSession host baseUrl fuel s
              (world (Executor.killSession host baseUrl fuel s w)))
     = Ok tt /\
   requests
     (events (Executor.killSession host baseUrl fuel s
                (world (Executor.killSession host baseUrl fuel s w))))
     = if truthy_str (happySessionId s)
       then [Terminate true; Poll Cleared; Clear true]
       else [Terminate true; Poll Cleared]).
Proof.
  intros Hpid Hfuel. split.
  - split; [apply settled_killSessionSilently; assumption|].
    apply settled_killSessionSilently; assumption.
  - split; [apply settled_killSession; assumption|].
    apply settled_killSession; assumption.
Qed.

End Settled.

Lemma reconcile_twice_succeeds_witness :
  (outcome (Executor.killSessionSilently (Sim.constant Sim.s1_gone) Sim.url 1
              Sim.s1 0) = Ok tt /\
   outcome (Executor.killSessionSilently (Sim.constant Sim.s1_gone) Sim.url 1
              Sim.s1
              (world (Executor.killSessionSilently (Sim.constant Sim.s1_gone)
                        Sim.url 1 Sim.s1 0))) = Ok tt /\
   requests
     (events (Executor.killSessionSilently (Sim.constant Sim.s1_gone) Sim.url
                1 Sim.s1
                (world (Executor.killSessionSilently
                          (Sim.constant Sim.s1_gone) Sim.url 1 Sim.s1 0))))
     = [Terminate true; Poll Cleared; Clear true]) /\
  (outcome (Executor.killSession (Sim.constant Sim.s1_gone) Sim.url 1
              Sim.s1 0) = Ok tt /\
   outcome (Executor.killSession (Sim.constant Sim.s1_gone) Sim.url 1 Sim.s1
              (world (Executor.killSession (Sim.constant Sim.s1_gone)
                        Sim.url 1 Sim.s1 0))) = Ok tt /\
   requests
     (events (Executor.killSession (Sim.constant Sim.s1_gone) Sim.url 1
                Sim.s1
                (world (Executor.killSession (Sim.constant Sim.s1_gone)
                          Sim.url 1 Sim.s1 0))))
     = [Terminate true; Poll Cleared; Clear true]).
Proof.
  apply (reconcile_twice_succeeds (Sim.constant Sim.s1_gone) Sim.url).
  - intros id body w. eexists. exists w. reflexivity.
  - intros params w. exists (Some [Sim.s1_gone]), Sim.s1_gone, [], w.
    repeat split.
  - intros body w. exists w. reflexivity.
  - reflexivity.
  - apply le_n.
Defined.

(** ** The resume action and the kill action *)
Section SameWorkflow.

Context {W : Type} (host : Host W).
Variable baseUrl : string.

(** C7. For a session with a [happySessionId] (non-empty),
    [killSessionSilently] and [killSession] perform the same effects in the
    same order and leave the same world, hence send the same terminate
    request, the same polls and the same metadata-clear request; with a pid
    (non-zero) they are the same run altogether, outcome included. *)
Theorem resume_and_kill_reconcile_alike
    (fuel : nat) (s : LocalSession) (w : W) (h : string) :
  happySessionId s = Some h -> h <> "" ->
  events (Executor.killSessionSilently host baseUrl fuel s w)
    = events (Executor.killSession host baseUrl fuel s w) /\
  world (Executor.killSessionSilently host baseUrl fuel s w)
    = world (Executor.killSession host baseUrl fuel s w) /\
  (forall p : Z,
      pid s = Some p -> p <> 0 ->
      Executor.killSessionSilently host baseUrl fuel s w
      = Executor.killSession host baseUrl fuel s w).
Proof.
  intros Hh Hh0.
  rewrite exec_killSessionSilently_run, exec_killSession_run, Hh.
  assert (Hlink : truthy_str (Some h) = true).
  { destruct h; [contradiction|reflexivity]. }
  rewrite Hlink.
  destruct (truthy_num (pid s)) eqn:Hpid.
  - destruct (axios_post_kill host _ _ w) as [[d|m] w1];
      [|split; [reflexivity|split; [reflexivity|intros; reflexivity]]].
    destruct (ApiClient.pollLoop host baseUrl fuel _ _ _ _ _ w1)
      as [[[s'|e|] w2] t2];
      (split; [reflexivity|split; [reflexivity|intros; reflexivity]]).
  - split; [reflexivity|]. split; [reflexivity|].
    intros p Hp Hp0. rewrite Hp in Hpid. cbn in Hpid.
    apply Z.eqb_neq in Hp0. rewrite Hp0 in Hpid. discriminate.
Qed.

End SameWorkflow.

Lemma resume_and_kill_reconcile_alike_witness :
  Executor.killSessionSilently Sim.scripted Sim.url 30 Sim.s1
    Scenario.vanishing
  = Executor.killSession Sim.scripted Sim.url 30 Sim.s1 Scenario.vanishing.
Proof.
  refine (proj2 (proj2
    (resume_and_kill_reconcile_alike Sim.scripted Sim.url 30 Sim.s1
       Scenario.vanishing "happy-1" _ _)) 4242 _ _);
    [reflexivity|discriminate|reflexivity|discriminate].
Defined.

(** ** The signal of the terminate request *)
Section SignalSent.

Context {W : Type} (host : Host W).
Variable baseUrl : string.

Lemma kill_requests_app (a b : list Event) :
  kill_requests (a ++ b) = kill_requests a ++ kill_requests b.
Proof.
  induction a as [|e a IH]; [reflexivity|].
  destruct e; cbn; rewrite ?IH; reflexivity.
Qed.

Lemma pollLoop_no_kill_request (id : string) (p : LocalSession -> bool)
    (timeout interval startTime : Z) (fuel : nat) :
  forall w : W,
    kill_requests
      (events (ApiClient.pollLoop host baseUrl fuel id p timeout interval
                 startTime w)) = [].
Proof.
  induction fuel as [|fuel IH]; intros w; [reflexivity|].
  rewrite pollLoop_step.
  destruct (Date_now host w - startTime <? timeout); [|reflexivity].
  destruct (axios_get_sessions host (poll_params id) w) as [[d|m] w'];
    [|reflexivity].
  destruct (list_or_empty d) as [|s rest]; [reflexivity|].
  destruct (p s); [reflexivity|]. cbn. apply IH.
Qed.

(** C8, amended. The terminate request of [killSessionSilently] and of
    [killSession] always carries the graceful signal [term] and the
    session's pid as [targetPid]: neither procedure takes an option for the
    signal strength. It is the client's [killSession] that posts the options
    of its caller unchanged, whichever signal they name. *)
Theorem terminate_request_is_graceful
    (fuel : nat) (s : LocalSession) (w : W) :
  kill_requests (events (Executor.killSessionSilently host baseUrl fuel s w))
    = (if truthy_num (pid s)
       then [(claudeSessionId s, Some (mkKillOptions (Some term) (pid s)))]
       else []) /\
  kill_requests (events (Executor.killSession host baseUrl fuel s w))
    = (if truthy_num (pid s)
       then [(claudeSessionId s, Some (mkKillOptions (Some term) (pid s)))]
       else []) /\
  (forall (id : string) (options : option KillOptions),
      kill_requests (events (ApiClient.killSession host id options w))
        = [(id, options)]).
Proof.
  rewrite exec_killSessionSilently_run, exec_killSession_run.
  split; [|split].
  - destruct (truthy_num (pid s)); [|reflexivity].
    destruct (axios_post_kill host _ _ w) as [[d|m] w1]; [|reflexivity].
    pose proof (pollLoop_no_kill_request (claudeSessionId s)
                  Executor.pid_cleared 10000 500 (Date_now host w1) fuel w1)
      as Hp.
    destruct (ApiClient.pollLoop host baseUrl fuel _ _ _ _ _ w1)
      as [[[s'|e|] w2] t2]; cbn in Hp |- *; rewrite ?Hp; try reflexivity.
    destruct (axios_post_upsert host _ w2) as [[u|m] w3];
      cbn; rewrite kill_requests_app, Hp; reflexivity.
  - destruct (truthy_num (pid s)); [|reflexivity].
    destruct (axios_post_kill host _ _ w) as [[d|m] w1]; [|reflexivity].
    pose proof (pollLoop_no_kill_request (claudeSessionId s)
                  Executor.pid_cleared 10000 500 (Date_now host w1) fuel w1)
      as Hp.
    destruct (ApiClient.pollLoop host baseUrl fuel _ _ _ _ _ w1)
      as [[[s'|e|] w2] t2]; cbn in Hp |- *; rewrite ?Hp; try reflexivity.
    destruct (truthy_str (happySessionId s)).
    + destruct (axios_post_upsert host _ w2) as [[u|m] w3];
        cbn; rewrite kill_requests_app, Hp; reflexivity.
    + cbn. rewrite kill_requests_app, Hp. reflexivity.
  - intros id options. rewrite api_killSession_run.
    destruct (axios_post_kill host id options w) as [[d|m] w1]; reflexivity.
Qed.

End SignalSent.

(** The claim as first stated fails: whatever the caller would like, the
    request of both procedures names [term], never the forceful [kill]. *)
Lemma forceful_signal_is_never_sent :
  map signal_sent
    (kill_requests
       (events (Executor.killSessionSilently Sim.scripted Sim.url 30 Sim.s1
                  Scenario.prompt))) = [Some term] /\
  map signal_sent
    (kill_requests
       (events (Executor.killSession Sim.scripted Sim.url 30 Sim.s1
                  Scenario.prompt))) = [Some term] /\
  Some term <> Some kill.
Proof. repeat split. discriminate. Qed.

(** ** The resume action *)
Section Resume.

Context {W : Type} (host : Host W).
Variable baseUrl : string.

Lemma resumeSessionInTerminal_run (fuel : nat) (s : LocalSession) (w : W) :
  Executor.resumeSessionInTerminal host baseUrl fuel s w =
  if kills_first s then
    match Executor.killSessionSilently host baseUrl fuel s w with
    | (Ok _, w1, t1) =>
        (Ok tt, w1,
         (EvInfo ("Moving session " +++ slice0 8 (claudeSessionId s)
                  +++ " from phone to VS Code...") :: t1
          ++ [EvInfo ("Session " +++ slice0 8 (claudeSessionId s)
                      +++ " terminated. Ready to resume locally.")])
         ++ terminal_effects s)
    | (Throw e, w1, t1) =>
        (Ok tt, w1,
         (EvInfo ("Moving session " +++ slice0 8 (claudeSessionId s)
                  +++ " from phone to VS Code...") :: t1
          ++ [kill_warning e])
         ++ terminal_effects s)
    | (OutOfFuel, w1, t1) =>
        (OutOfFuel, w1,
         EvInfo ("Moving session " +++ slice0 8 (claudeSessionId s)
                 +++ " from phone to VS Code...") :: t1)
    end
  else (Ok tt, w, terminal_effects s).
Proof.
  unfold Executor.resumeSessionInTerminal. fold (kills_first s).
  destruct (kills_first s); [|reflexivity].
  unfold bind at 1. unfold try_catch. unfold bind at 1. unfold emit at 1.
  unfold bind at 1.
  destruct (Executor.killSessionSilently host baseUrl fuel s w)
    as [[[[]|e|] w1] t1]; reflexivity.
Qed.

(** With time advancing, the loop ends within its budget of 10000 ms, that
    is within 20 sleeps of 500 ms. *)
Lemma pollLoop_ends (id : string) (p : LocalSession -> bool) (startTime : Z)
    (Hclock : clock_advances host) (n : nat) :
  forall (fuel : nat) (w : W),
    10000 - (Date_now host w - startTime) <= 500 * Z.of_nat n ->
    (n < fuel)%nat ->
    outcome (ApiClient.pollLoop host baseUrl fuel id p 10000 500 startTime w)
      <> OutOfFuel.
Proof.
  destruct Hclock as [Hget Hsleep].
  induction n as [|n IH]; intros fuel w Ht Hfuel;
    (destruct fuel as [|fuel]; [lia|]); rewrite pollLoop_step.
  - replace (Date_now host w - startTime <? 10000) with false
      by (symmetry; apply Z.ltb_ge; lia).
    discriminate.
  - destruct (Date_now host w - startTime <? 10000); [|discriminate].
    pose proof (Hget (poll_params id) w) as Hg.
    destruct (axios_get_sessions host (poll_params id) w) as [[d|m] w'];
      [|discriminate].
    destruct (list_or_empty d) as [|s rest]; [discriminate|].
    destruct (p s); [discriminate|].
    cbn [outcome fst snd] in *. apply IH; [|lia].
    pose proof (Hsleep 500 w'). lia.
Qed.

Lemma killSessionSilently_ends (Hclock : clock_advances host) (fuel : nat)
    (s : LocalSession) (w : W) :
  (21 <= fuel)%nat ->
  outcome (Executor.killSessionSilently host baseUrl fuel s w) <> OutOfFuel.
Proof.
  intros Hfuel. rewrite exec_killSessionSilently_run.
  destruct (truthy_num (pid s)); [|discriminate].
  destruct (axios_post_kill host _ _ w) as [[d|m] w1]; [|discriminate].
  assert (Hp : outcome (ApiClient.pollLoop host baseUrl fuel
                          (claudeSessionId s) Executor.pid_cleared 10000 500
                          (Date_now host w1) w1) <> OutOfFuel).
  { apply (pollLoop_ends _ _ _ Hclock 20); lia. }
  destruct (ApiClient.pollLoop host baseUrl fuel _ _ _ _ _ w1)
    as [[[s'|e|] w2] t2].
  - destruct (axios_post_upsert host _ w2) as [[u|m] w3]; discriminate.
  - discriminate.
  - destruct Hp. reflexivity.
Qed.

(** C10. With a clock that advances (and fuel for the 21 tests of the loop
    condition), every run of [resumeSessionInTerminal] resolves and ends by
    creating the terminal, sending [claude --resume <claudeSessionId>] and
    showing it, whether the kill was not attempted, resolved or threw; an
    error thrown by [killSessionSilently] is caught and becomes the warning
    shown before the terminal is created. *)
Theorem resume_always_opens_the_terminal
    (fuel : nat) (s : LocalSession) (w : W) :
  clock_advances host ->
  (21 <= fuel)%nat ->
  exists (before : list Event),
    outcome (Executor.resumeSessionInTerminal host baseUrl fuel s w) = Ok tt /\
    events (Executor.resumeSessionInTerminal host baseUrl fuel s w)
      = before ++ terminal_effects s /\
    (kills_first s = false -> before = []) /\
    (forall e,
        kills_first s = true ->
        outcome (Executor.killSessionSilently host baseUrl fuel s w)
          = Throw e ->
        exists before', before = before' ++ [kill_warning e]).
Proof.
  intros Hclock Hfuel. rewrite resumeSessionInTerminal_run.
  pose proof (killSessionSilently_ends Hclock fuel s w Hfuel) as Hends.
  destruct (kills_first s).
  - destruct (Executor.killSessionSilently host baseUrl fuel s w)
      as [[[[]|e|] w1] t1]; cbn [outcome events fst snd] in *.
    + eexists. split; [reflexivity|]. split; [reflexivity|].
      split; [discriminate|]. intros e _ He. discriminate.
    + eexists. split; [reflexivity|]. split; [reflexivity|].
      split; [discriminate|]. intros e' _ He. injection He as <-.
      eexists. rewrite app_comm_cons. reflexivity.
    + destruct Hends. reflexivity.
  - exists []. split; [reflexivity|]. split; [reflexivity|].
    split; [reflexivity|]. discriminate.
Qed.

End Resume.

Lemma resume_always_opens_the_terminal_witness :
  exists before : list Event,
    outcome (Executor.resumeSessionInTerminal Sim.scripted Sim.url 21 Sim.s1
               Scenario.server_down) = Ok tt /\
    events (Executor.resumeSessionInTerminal Sim.scripted Sim.url 21 Sim.s1
              Scenario.server_down)
      = before ++ terminal_effects Sim.s1 /\
    (kills_first Sim.s1 = false -> before = []) /\
    (forall e,
        kills_first Sim.s1 = true ->
        outcome (Executor.killSessionSilently Sim.scripted Sim.url 21 Sim.s1
                   Scenario.server_down) = Throw e ->
        exists before', before = before' ++ [kill_warning e]).
Proof.
  apply (resume_always_opens_the_terminal Sim.scripted Sim.url 21 Sim.s1
           Scenario.server_down).
  - split; intros; cbn.
    + unfold Sim.next_poll. destruct (Sim.poll_replies w); cbn; lia.
    + lia.
  - apply le_n.
Defined.

(** ** Where errors go *)

Section Errors.

Context {W : Type} (host : Host W).
Variable baseUrl : string.

Lemma killSessionSilently_surfaces (fuel : nat) (s : LocalSession) (w : W) :
  truthy_num (pid s) = true ->
  surfaces_client_errors host baseUrl fuel s w true
    (Executor.killSessionSilently host baseUrl fuel s w).
Proof.
  intros Hpid. unfold surfaces_client_errors, Executor.killSessionSilently.
  cbv zeta. rewrite Hpid. cbn [negb].
  fold (kill_body s). fold poll_options. unfold bind.
  destruct (ApiClient.killSession host _ _ w) as [[[d|e1|] w1] t1];
    cbn [world outcome events is_ok fst snd].
  2:{ repeat split; try discriminate.
      intros e E. injection E as <-. reflexivity. }
  2:{ repeat split; discriminate. }
  destruct (ApiClient.pollSession host baseUrl fuel _ _ _ w1)
    as [[[s'|e2|] w2] t2]; cbn [world outcome events is_ok fst snd].
  2:{ repeat split; try discriminate.
      intros e _ E. injection E as <-. reflexivity. }
  2:{ repeat split; discriminate. }
  destruct (ApiClient.clearHappyMetadata host _ w2) as [[[u|e3|] w3] t3];
    cbn [world outcome events fst snd];
    repeat split; try discriminate.
  intros e _ _ _ E. injection E as <-. reflexivity.
Qed.

Lemma killSession_surfaces (fuel : nat) (s : LocalSession) (w : W) :
  truthy_num (pid s) = true ->
  surfaces_client_errors host baseUrl fuel s w
    (truthy_str (happySessionId s))
    (Executor.killSession host baseUrl fuel s w).
Proof.
  intros Hpid. unfold surfaces_client_errors, Executor.killSession.
  cbv zeta. rewrite Hpid. cbn [negb].
  fold (kill_body s). fold poll_options. unfold bind.
  destruct (ApiClient.killSession host _ _ w) as [[[d|e1|] w1] t1];
    cbn [world outcome events is_ok fst snd].
  2:{ repeat split; try discriminate.
      intros e E. injection E as <-. reflexivity. }
  2:{ repeat split; discriminate. }
  destruct (ApiClient.pollSession host baseUrl fuel _ _ _ w1)
    as [[[s'|e2|] w2] t2]; cbn [world outcome events is_ok fst snd].
  2:{ repeat split; try discriminate.
      intros e _ E. injection E as <-. reflexivity. }
  2:{ repeat split; discriminate. }
  destruct (truthy_str (happySessionId s));
    [|repeat split; discriminate].
  destruct (ApiClient.clearHappyMetadata host _ w2) as [[[u|e3|] w3] t3];
    cbn [world outcome events fst snd];
    repeat split; try discriminate.
  intros e _ _ _ E. injection E as <-. reflexivity.
Qed.

(** C9, amended. An error thrown by a client call (terminate, poll, clear)
    inside [killSessionSilently] or [killSession] reaches the caller of that
    procedure as it was thrown, with no recovery in the procedure: the
    procedure stops at the first client call that throws and throws that
    very error, and what the procedure throws is its own missing-pid error
    or exactly the error of the client call that failed.
    The client calls themselves do not pass the transport's error on: they
    log it and throw a new error with a fixed message in its place. And
    [resumeSessionInTerminal] never throws: it catches the error of
    [killSessionSilently]. *)
Theorem errors_pass_through_the_procedures_only
    (fuel : nat) (s : LocalSession) (w : W) :
  let id := claudeSessionId s in
  let w1 := world (ApiClient.killSession host id (kill_body s) w) in
  let w2 := world (ApiClient.pollSession host baseUrl fuel id
                     Executor.pid_cleared poll_options w1) in
  (truthy_num (pid s) = true ->
   surfaces_client_errors host baseUrl fuel s w true
     (Executor.killSessionSilently host baseUrl fuel s w) /\
   surfaces_client_errors host baseUrl fuel s w
     (truthy_str (happySessionId s))
     (Executor.killSession host baseUrl fuel s w)) /\
  (forall e,
      outcome (Executor.killSessionSilently host baseUrl fuel s w) = Throw e ->
      e = "Session has no PID to kill" \/
      outcome (ApiClient.killSession host id (kill_body s) w) = Throw e \/
      outcome (ApiClient.pollSession host baseUrl fuel id
                 Executor.pid_cleared poll_options w1) = Throw e \/
      outcome (ApiClient.clearHappyMetadata host id w2) = Throw e) /\
  (forall e,
      outcome (Executor.killSession host baseUrl fuel s w) = Throw e ->
      e = "Session has no PID" \/
      outcome (ApiClient.killSession host id (kill_body s) w) = Throw e \/
      outcome (ApiClient.pollSession host baseUrl fuel id
                 Executor.pid_cleared poll_options w1) = Throw e \/
      outcome (ApiClient.clearHappyMetadata host id w2) = Throw e) /\
  (forall body m,
      fst (axios_post_kill host id body w) = HttpErr m ->
      outcome (ApiClient.killSession host id body w)
        = Throw ("Cannot kill session " +++ id)) /\
  (forall m,
      fst (axios_get_sessions host (poll_params id) w) = HttpErr m ->
      outcome (ApiClient.listSessions host baseUrl (poll_params id) w)
        = Throw ("Cannot connect to Happy server at " +++ baseUrl) /\
      outcome (ApiClient.getSession host baseUrl id w)
        = Throw ("Cannot fetch session " +++ id)) /\
  (forall m,
      fst (axios_post_upsert host (clear_body s) w) = HttpErr m ->
      outcome (ApiClient.clearHappyMetadata host id w)
        = Throw ("Cannot detach session " +++ id +++ " from Happy")) /\
  (forall e,
      outcome (Executor.resumeSessionInTerminal host baseUrl fuel s w)
        <> Throw e).
Proof.
  cbv zeta. split.
  { intros Hpid. split.
    - apply killSessionSilently_surfaces, Hpid.
    - apply killSession_surfaces, Hpid. }
  split; [|split; [|split; [|split; [|split]]]].
  - intros e. unfold Executor.killSessionSilently.
    destruct (truthy_num (pid s)); cbn [negb].
    2:{ blame. }
    fold (kill_body s). fold poll_options. unfold bind at 1.
    destruct (ApiClient.killSession host _ _ w) as [[[d|e1|] w1] t1];
      cbn [world outcome fst snd]; [|blame|discriminate].
    unfold bind at 1.
    destruct (ApiClient.pollSession host baseUrl fuel _ _ _ w1)
      as [[[s'|e2|] w2] t2]; cbn [world outcome fst snd];
      [|blame|discriminate].
    destruct (ApiClient.clearHappyMetadata host _ w2) as [[[u|e3|] w3] t3];
      cbn [world outcome fst snd]; try discriminate.
    blame.
  - intros e. unfold Executor.killSession.
    destruct (truthy_num (pid s)); cbn [negb].
    2:{ blame. }
    fold (kill_body s). fold poll_options. unfold bind at 1.
    destruct (ApiClient.killSession host _ _ w) as [[[d|e1|] w1] t1];
      cbn [world outcome fst snd]; [|blame|discriminate].
    unfold bind at 1.
    destruct (ApiClient.pollSession host baseUrl fuel _ _ _ w1)
      as [[[s'|e2|] w2] t2]; cbn [world outcome fst snd];
      [|blame|discriminate].
    destruct (truthy_str (happySessionId s)); [|discriminate].
    destruct (ApiClient.clearHappyMetadata host _ w2) as [[[u|e3|] w3] t3];
      cbn [world outcome fst snd]; try discriminate.
    blame.
  - intros body m. rewrite api_killSession_run.
    destruct (axios_post_kill host _ body w) as [[d|m'] w']; cbn;
      [discriminate|reflexivity].
  - intros m. rewrite listSessions_run, getSession_run.
    destruct (axios_get_sessions host _ w) as [[d|m'] w']; cbn;
      [discriminate|split; reflexivity].
  - intros m. rewrite clearHappyMetadata_run. fold (clear_body s).
    destruct (axios_post_upsert host _ w) as [[d|m'] w']; cbn;
      [discriminate|reflexivity].
  - intros e. rewrite resumeSessionInTerminal_run.
    destruct (kills_first s); [|discriminate].
    destruct (Executor.killSessionSilently host baseUrl fuel s w)
      as [[[[]|e'|] w1] t1]; discriminate.
Qed.

End Errors.

(** The claim as first stated fails: the transport's "Network Error" is
    logged and replaced before it reaches the caller of [killSession] or of
    [killSessionSilently], and [resumeSessionInTerminal] swallows what is
    left of it. *)
Lemma transport_error_is_replaced_then_swallowed :
  fst (axios_post_kill Sim.scripted (claudeSessionId Sim.s1)
         (kill_body Sim.s1) Scenario.server_down) = HttpErr "Network Error" /\
  Executor.killSession Sim.scripted Sim.url 30 Sim.s1 Scenario.server_down
  = (Throw "Cannot kill session s1-4242-abcdef", Scenario.server_down,
     [EvPostKill "s1-4242-abcdef" (kill_body Sim.s1)
        (HttpErr "Network Error");
      EvConsoleError "Failed to kill session:" "Network Error"]) /\
  outcome (Executor.killSessionSilently Sim.scripted Sim.url 30 Sim.s1
             Scenario.server_down)
    = Throw "Cannot kill session s1-4242-abcdef" /\
  "Cannot kill session s1-4242-abcdef" <> "Network Error" /\
  outcome (Executor.resumeSessionInTerminal Sim.scripted Sim.url 30 Sim.s1
             Scenario.server_down) = Ok tt.
Proof. repeat split. discriminate. Qed.

Lemma errors_pass_through_the_procedures_only_witness :
  Executor.killSessionSilently Sim.scripted Sim.url 30 Sim.s1
    Scenario.server_down
  = (Throw "Cannot kill session s1-4242-abcdef", Scenario.server_down,
     [EvPostKill "s1-4242-abcdef" (kill_body Sim.s1)
        (HttpErr "Network Error");
      EvConsoleError "Failed to kill session:" "Network Error"]).
Proof.
  apply (proj1 (proj1 (proj1
    (errors_pass_through_the_procedures_only Sim.scripted Sim.url 30 Sim.s1
       Scenario.server_down) eq_refl))).
  reflexivity.
Defined.

(** * Further behaviour of the client, the executor and their callers *)

(** ** The poll loop with any predicate and any options *)
Section PollLoop.

Context {W : Type} (host : Host W).
Variable baseUrl : string.
Variable id : string.
Variable p : LocalSession -> bool.

(** X1. A session that [pollSession] resolves with satisfies the predicate
    and is the first record of the reply to the last effect of the call, a
    GET for that session id. *)
Theorem pollSession_returns_a_session_that_passed
    (fuel : nat) (options : PollOptions) (w w' : W) (s : LocalSession)
    (tr : list Event) :
  ApiClient.pollSession host baseUrl fuel id p options w = (Ok s, w', tr) ->
  p s = true /\
  exists pre body rest,
    tr = pre ++ [EvGetSessions (poll_params id) (HttpOk body)] /\
    list_or_empty body = s :: rest.
Proof.
  rewrite pollSession_run.
  generalize (Date_now host w) at 1. intros startTime.
  revert w tr. induction fuel as [|fuel IH]; intros w tr; [discriminate|].
  rewrite pollLoop_step.
  destruct (Date_now host w - startTime <? _); [|discriminate].
  destruct (axios_get_sessions host (poll_params id) w) as [[d|m] w1];
    [|discriminate].
  destruct (list_or_empty d) as [|s0 rest] eqn:Hd; [discriminate|].
  destruct (p s0) eqn:Hp.
  - intros E. injection E as <- <- <-. split; [exact Hp|].
    exists [], d, rest. split; [reflexivity|exact Hd].
  - destruct (ApiClient.pollLoop host baseUrl fuel id p _ _ startTime
                (setTimeout host _ w1)) as [[o w2] t2] eqn:Hrec.
    cbn [outcome world events fst snd]. intros E. injection E as -> -> <-.
    destruct (IH _ _ Hrec) as (Hs & pre & body & rest' & -> & Hb).
    split; [exact Hs|].
    exists (EvGetSessions (poll_params id) (HttpOk d)
              :: EvSleep (effective_interval options) :: pre), body, rest'.
    split; [reflexivity|exact Hb].
Qed.

Lemma pollLoop_effects (fuel : nat) (timeout interval startTime : Z) :
  forall w : W,
    Forall (poll_effect id interval)
      (events (ApiClient.pollLoop host baseUrl fuel id p timeout interval
                 startTime w)).
Proof.
  induction fuel as [|fuel IH]; intros w; [constructor|].
  rewrite pollLoop_step.
  destruct (Date_now host w - startTime <? timeout); [|constructor].
  assert (Hget : forall r, poll_effect id interval
                             (EvGetSessions (poll_params id) r)).
  { intros r. left. eauto. }
  assert (Hlog : forall l m, poll_effect id interval (EvConsoleError l m)).
  { intros l m. right. right. eauto. }
  destruct (axios_get_sessions host (poll_params id) w) as [[d|m] w1];
    [|repeat (apply Forall_cons; [auto|]); apply Forall_nil].
  destruct (list_or_empty d) as [|s0 rest];
    [repeat (apply Forall_cons; [auto|]); apply Forall_nil|].
  destruct (p s0); [repeat (apply Forall_cons; [auto|]); apply Forall_nil|].
  cbn [events snd]. apply Forall_cons; [auto|].
  apply Forall_cons; [|apply IH]. right. left. reflexivity.
Qed.

(** X2. [pollSession] only reads: each of its effects is a GET for the
    session id, a sleep of exactly the delay in force (the [interval]
    option, 500 ms when it is absent or zero), or a line on the console. It
    posts nothing. *)
Theorem pollSession_only_polls_and_sleeps
    (fuel : nat) (options : PollOptions) (w : W) :
  Forall (poll_effect id (effective_interval options))
    (events (ApiClient.pollSession host baseUrl fuel id p options w)).
Proof. rewrite pollSession_run. apply pollLoop_effects. Qed.

Lemma pollLoop_counts (fuel : nat) (timeout interval startTime : Z) :
  forall w : W,
    let r := ApiClient.pollLoop host baseUrl fuel id p timeout interval
               startTime w in
    match outcome r with
    | Ok _ =>
        count_events is_get (events r) = S (count_events is_sleep (events r))
    | Throw e =>
        if String.eqb e (timeout_message timeout)
        then count_events is_get (events r) = count_events is_sleep (events r)
        else count_events is_get (events r)
             = S (count_events is_sleep (events r))
    | OutOfFuel =>
        count_events is_get (events r) = count_events is_sleep (events r)
    end.
Proof.
  induction fuel as [|fuel IH]; intros w; cbv zeta; [reflexivity|].
  rewrite pollLoop_step.
  destruct (Date_now host w - startTime <? timeout).
  2:{ cbn [outcome fst]. rewrite String.eqb_refl. reflexivity. }
  destruct (axios_get_sessions host (poll_params id) w) as [[d|m] w1];
    [|reflexivity].
  destruct (list_or_empty d) as [|s0 rest]; [reflexivity|].
  destruct (p s0); [reflexivity|].
  specialize (IH (setTimeout host interval w1)). cbv zeta in IH.
  remember (ApiClient.pollLoop host baseUrl fuel id p timeout interval
              startTime (setTimeout host interval w1)) as r eqn:Hr.
  cbn [outcome events fst snd].
  change (fst (fst r)) with (outcome r). change (snd r) with (events r).
  change (count_events is_get
            (EvGetSessions (poll_params id) (HttpOk d)
               :: EvSleep interval :: events r))
    with (S (count_events is_get (events r))).
  change (count_events is_sleep
            (EvGetSessions (poll_params id) (HttpOk d)
               :: EvSleep interval :: events r))
    with (S (count_events is_sleep (events r))).
  destruct (outcome r) as [s'|e|]; [congruence| |congruence].
  destruct (String.eqb e (timeout_message timeout)); congruence.
Qed.

Lemma pollLoop_starts_with_a_poll (fuel : nat)
    (timeout interval startTime : Z) (w : W) :
  events (ApiClient.pollLoop host baseUrl fuel id p timeout interval
            startTime w) = [] \/
  exists r tl,
    events (ApiClient.pollLoop host baseUrl fuel id p timeout interval
              startTime w) = EvGetSessions (poll_params id) r :: tl.
Proof.
  destruct fuel as [|fuel]; [left; reflexivity|]. rewrite pollLoop_step.
  destruct (Date_now host w - startTime <? timeout); [|left; reflexivity].
  right.
  destruct (axios_get_sessions host (poll_params id) w) as [[d|m] w1];
    [|cbn; eauto].
  destruct (list_or_empty d) as [|s0 rest]; [cbn; eauto|].
  destruct (p s0); cbn; eauto.
Qed.

Lemma pollLoop_sleeps_after_pending (fuel : nat)
    (timeout interval startTime : Z) :
  forall (w : W) pre ms post,
    events (ApiClient.pollLoop host baseUrl fuel id p timeout interval
              startTime w) = pre ++ EvSleep ms :: post ->
    (exists pre' body s rest,
        pre = pre' ++ [EvGetSessions (poll_params id) (HttpOk body)] /\
        list_or_empty body = s :: rest /\ p s = false) /\
    (post = [] \/
     exists r post', post = EvGetSessions (poll_params id) r :: post').
Proof.
  induction fuel as [|fuel IH]; intros w pre ms post E.
  - destruct pre; discriminate.
  - rewrite pollLoop_step in E.
    destruct (Date_now host w - startTime <? timeout);
      [|destruct pre; discriminate].
    destruct (axios_get_sessions host (poll_params id) w) as [[d|m] w1].
    2:{ cbn in E. destruct pre as [|a [|b [|c pre]]]; try discriminate.
        destruct pre; discriminate. }
    destruct (list_or_empty d) as [|s0 rest] eqn:Hd.
    { cbn in E. destruct pre as [|a pre]; [discriminate|].
      destruct pre; discriminate. }
    destruct (p s0) eqn:Hp.
    { cbn in E. destruct pre as [|a pre]; [discriminate|].
      destruct pre; discriminate. }
    cbn [events snd] in E. apply cons_split in E.
    destruct E as [(_ & E & _)|(pre1 & -> & E)]; [discriminate|].
    apply cons_split in E.
    destruct E as [(-> & _ & <-)|(pre2 & -> & E)].
    + split.
      * exists [], d, s0, rest. repeat split; assumption.
      * apply pollLoop_starts_with_a_poll.
    + destruct (IH _ _ _ _ E)
        as [(pre' & body & s & rest' & -> & Hb & Hs) Hpost].
      split; [|exact Hpost].
      exists (EvGetSessions (poll_params id) (HttpOk d)
                :: EvSleep interval :: pre'), body, s, rest'.
      repeat split; assumption.
Qed.

(** X3. [pollSession] sleeps between two polls and nowhere else: every
    sleep comes right after a GET that found a record failing the predicate
    and is followed by the next GET or by nothing; so a call that resolves,
    or throws for a poll that was rejected or found no record, has polled
    exactly once more than it has slept, and a call that throws its timeout
    error (or is cut short) has slept after every poll. *)
Theorem pollSession_sleeps_between_polls
    (fuel : nat) (options : PollOptions) (w : W) :
  let r := ApiClient.pollSession host baseUrl fuel id p options w in
  match outcome r with
  | Ok _ =>
      count_events is_get (events r) = S (count_events is_sleep (events r))
  | Throw e =>
      if String.eqb e ("Polling timeout after "
                       +++ show_num (effective_timeout options) +++ "ms")
      then count_events is_get (events r) = count_events is_sleep (events r)
      else count_events is_get (events r)
           = S (count_events is_sleep (events r))
  | OutOfFuel =>
      count_events is_get (events r) = count_events is_sleep (events r)
  end /\
  (forall pre ms post,
      events r = pre ++ EvSleep ms :: post ->
      (exists pre' body s rest,
          pre = pre' ++ [EvGetSessions (poll_params id) (HttpOk body)] /\
          list_or_empty body = s :: rest /\ p s = false) /\
      (post = [] \/
       exists reply post',
         post = EvGetSessions (poll_params id) reply :: post')).
Proof.
  cbv zeta. rewrite pollSession_run. split.
  - apply pollLoop_counts.
  - apply pollLoop_sleeps_after_pending.
Qed.

Section Clock.

Hypothesis Hclock : clock_advances host.

Lemma pollLoop_bound (fuel : nat) (timeout interval startTime : Z) :
  0 < interval ->
  forall w : W,
    let n := count_events is_get
               (events (ApiClient.pollLoop host baseUrl fuel id p timeout
                          interval startTime w)) in
    n = 0%nat \/
    (Date_now host w - startTime) + (Z.of_nat n - 1) * interval < timeout.
Proof.
  intros Hi. destruct Hclock as [Hget Hsleep].
  induction fuel as [|fuel IH]; intros w; cbv zeta; [left; reflexivity|].
  rewrite pollLoop_step.
  destruct (Date_now host w - startTime <? timeout) eqn:Ht;
    [|left; reflexivity].
  apply Z.ltb_lt in Ht.
  pose proof (Hget (poll_params id) w) as Hg.
  destruct (axios_get_sessions host (poll_params id) w) as [[d|m] w1];
    [|right; cbn; lia].
  destruct (list_or_empty d) as [|s0 rest]; [right; cbn; lia|].
  destruct (p s0); [right; cbn; lia|].
  specialize (IH (setTimeout host interval w1)). cbv zeta in IH.
  pose proof (Hsleep interval w1) as Hs. cbn [snd] in Hg.
  cbn [events snd].
  remember (ApiClient.pollLoop host baseUrl fuel id p timeout interval
              startTime (setTimeout host interval w1)) as r eqn:Hr.
  change (count_events is_get
            (EvGetSessions (poll_params id) (HttpOk d)
               :: EvSleep interval :: events r))
    with (S (count_events is_get (events r))).
  right. destruct IH as [->|IH]; lia.
Qed.

(** X4. With a clock that advances and a positive delay, [pollSession]
    never polls more often than the budget allows: [n] polls take at least
    [n - 1] delays, which fit in the budget. With the defaults (10000 ms,
    500 ms) that is at most 20 polls. *)
Theorem pollSession_polls_within_budget
    (fuel : nat) (options : PollOptions) (w : W) :
  0 < effective_interval options ->
  count_events is_get
    (events (ApiClient.pollSession host baseUrl fuel id p options w)) = 0%nat
  \/
  (Z.of_nat
     (count_events is_get
        (events (ApiClient.pollSession host baseUrl fuel id p options w)))
   - 1) * effective_interval options
  < effective_timeout options.
Proof.
  intros Hi. rewrite pollSession_run.
  destruct (pollLoop_bound fuel (effective_timeout options)
              (effective_interval options) (Date_now host w) Hi w)
    as [H|H]; [left; exact H|right].
  unfold effective_timeout, effective_interval in *. lia.
Qed.

Lemma pollLoop_settles (timeout interval startTime : Z) (n : nat) :
  0 < interval ->
  forall (fuel : nat) (w : W),
    timeout - (Date_now host w - startTime) <= interval * Z.of_nat n ->
    (n < fuel)%nat ->
    outcome (ApiClient.pollLoop host baseUrl fuel id p timeout interval
               startTime w) <> OutOfFuel.
Proof.
  intros Hi. destruct Hclock as [Hget Hsleep].
  induction n as [|n IH]; intros fuel w Ht Hfuel;
    (destruct fuel as [|fuel]; [lia|]); rewrite pollLoop_step.
  - replace (Date_now host w - startTime <? timeout) with false
      by (symmetry; apply Z.ltb_ge; lia).
    discriminate.
  - destruct (Date_now host w - startTime <? timeout); [|discriminate].
    pose proof (Hget (poll_params id) w) as Hg.
    destruct (axios_get_sessions host (poll_params id) w) as [[d|m] w1];
      [|discriminate].
    destruct (list_or_empty d) as [|s0 rest]; [discriminate|].
    destruct (p s0); [discriminate|].
    cbn [outcome fst snd] in *. apply IH; [|lia].
    pose proof (Hsleep interval w1). lia.
Qed.

(** X5. With a clock that advances and a positive delay, [pollSession]
    settles: once the loop condition may be tested one time more than the
    delays that fit in the budget, the call resolves or throws, it does not
    go on polling. *)
Theorem pollSession_settles
    (fuel n : nat) (options : PollOptions) (w : W) :
  0 < effective_interval options ->
  effective_timeout options <= effective_interval options * Z.of_nat n ->
  (n < fuel)%nat ->
  outcome (ApiClient.pollSession host baseUrl fuel id p options w)
    <> OutOfFuel.
Proof.
  intros Hi Ht Hfuel. rewrite pollSession_run.
  apply (pollLoop_settles _ _ _ n); try assumption.
  unfold effective_timeout, effective_interval in *. lia.
Qed.

End Clock.

(** X6. A negative [timeout] makes [pollSession] throw its timeout error at
    once, before any request. A [timeout] of zero is not "no waiting": the
    call runs as with a budget of 10000 ms, as it does without a [timeout],
    and so starts with a poll; likewise with an [interval] of zero, or
    without one, it runs as with a delay of 500 ms. *)
Theorem pollSession_timeout_edge_cases
    (fuel : nat) (options : PollOptions) (t : Z) (w : W) :
  (timeout options = Some t -> t < 0 ->
   ApiClient.pollSession host baseUrl (S fuel) id p options w
   = (Throw ("Polling timeout after " +++ show_num t +++ "ms"), w, [])) /\
  (timeout options = Some 0 \/ timeout options = None ->
   ApiClient.pollSession host baseUrl fuel id p options w
   = ApiClient.pollSession host baseUrl fuel id p
       (mkPollOptions (Some 10000) (interval options)) w) /\
  (interval options = Some 0 \/ interval options = None ->
   ApiClient.pollSession host baseUrl fuel id p options w
   = ApiClient.pollSession host baseUrl fuel id p
       (mkPollOptions (timeout options) (Some 500)) w) /\
  (timeout options = Some 0 \/ timeout options = None ->
   exists reply tl,
     events (ApiClient.pollSession host baseUrl (S fuel) id p options w)
     = EvGetSessions (poll_params id) reply :: tl).
Proof.
  split; [|split; [|split]].
  - intros Ht Hneg.
    assert (Hnum : num_or (timeout options) 10000 = t).
    { unfold num_or. rewrite Ht. cbn [truthy_num].
      replace (t =? 0) with false by (symmetry; apply Z.eqb_neq; lia).
      reflexivity. }
    rewrite pollSession_run, pollLoop_step, Z.sub_diag, Hnum.
    replace (0 <? t) with false by (symmetry; apply Z.ltb_ge; lia).
    reflexivity.
  - intros Ht. rewrite !pollSession_run. cbn [timeout interval].
    destruct Ht as [-> | ->]; reflexivity.
  - intros Hi. rewrite !pollSession_run. cbn [timeout interval].
    destruct Hi as [-> | ->]; reflexivity.
  - intros Ht. rewrite pollSession_run, pollLoop_step, Z.sub_diag.
    replace (num_or (timeout options) 10000) with 10000
      by (destruct Ht as [-> | ->]; reflexivity).
    cbn [Z.ltb Z.compare].
    destruct (axios_get_sessions host (poll_params id) w) as [[d|m] w1];
      [|cbn; eauto].
    destruct (list_or_empty d) as [|s0 rest]; [cbn; eauto|].
    destruct (p s0); cbn; eauto.
Qed.

End PollLoop.

Lemma pollSession_returns_a_session_that_passed_witness :
  Executor.pid_cleared Sim.s1_gone = true /\
  exists pre body rest,
    [EvGetSessions (poll_params "s1") (Sim.seen Sim.s1);
     EvSleep 500;
     EvGetSessions (poll_params "s1") (Sim.seen Sim.s1_gone)]
    = pre ++ [EvGetSessions (poll_params "s1") (HttpOk body)] /\
    list_or_empty body = Sim.s1_gone :: rest.
Proof.
  apply (pollSession_returns_a_session_that_passed Sim.scripted Sim.url "s1"
           Executor.pid_cleared 5 poll_options
           (Sim.mkWorld 0 Sim.accepted_kill [Sim.seen Sim.s1]
              (Sim.seen Sim.s1_gone) (HttpOk tt))
           (Sim.mkWorld 500 Sim.accepted_kill []
              (Sim.seen Sim.s1_gone) (HttpOk tt))).
  reflexivity.
Defined.

Lemma pollSession_sleeps_between_polls_witness :
  (exists pre' body s rest,
      [EvGetSessions (poll_params "s1") (Sim.seen Sim.s1)]
      = pre' ++ [EvGetSessions (poll_params "s1") (HttpOk body)] /\
      list_or_empty body = s :: rest /\ Executor.pid_cleared s = false) /\
  ([EvGetSessions (poll_params "s1") (Sim.seen Sim.s1_gone)] = [] \/
   exists reply post',
     [EvGetSessions (poll_params "s1") (Sim.seen Sim.s1_gone)]
     = EvGetSessions (poll_params "s1") reply :: post').
Proof.
  apply (proj2 (pollSession_sleeps_between_polls Sim.scripted Sim.url "s1"
                  Executor.pid_cleared 5 poll_options
                  (Sim.mkWorld 0 Sim.accepted_kill [Sim.seen Sim.s1]
                     (Sim.seen Sim.s1_gone) (HttpOk tt)))
           [EvGetSessions (poll_params "s1") (Sim.seen Sim.s1)] 500
           [EvGetSessions (poll_params "s1") (Sim.seen Sim.s1_gone)]).
  reflexivity.
Defined.

Lemma scripted_clock_advances : clock_advances Sim.scripted.
Proof.
  split; intros; cbn.
  - unfold Sim.next_poll. destruct (Sim.poll_replies w); cbn; lia.
  - lia.
Qed.

Lemma pollSession_polls_within_budget_witness :
  count_events is_get
    (events (ApiClient.pollSession Sim.scripted Sim.url 9 "s1"
               Executor.pid_cleared (mkPollOptions (Some 1000) (Some 300))
               (Sim.mkWorld 0 Sim.accepted_kill [] (Sim.seen Sim.s1)
                  (HttpOk tt)))) = 0%nat
  \/
  (Z.of_nat
     (count_events is_get
        (events (ApiClient.pollSession Sim.scripted Sim.url 9 "s1"
                   Executor.pid_cleared (mkPollOptions (Some 1000) (Some 300))
                   (Sim.mkWorld 0 Sim.accepted_kill [] (Sim.seen Sim.s1)
                      (HttpOk tt)))))
   - 1) * 300 < 1000.
Proof.
  apply (pollSession_polls_within_budget Sim.scripted Sim.url "s1"
           Executor.pid_cleared scripted_clock_advances 9
           (mkPollOptions (Some 1000) (Some 300))).
  reflexivity.
Defined.

Lemma pollSession_settles_witness :
  outcome (ApiClient.pollSession Sim.scripted Sim.url 5 "s1"
             Executor.pid_cleared (mkPollOptions (Some 1000) (Some 300))
             (Sim.mkWorld 0 Sim.accepted_kill [] (Sim.seen Sim.s1)
                (HttpOk tt)))
    <> OutOfFuel.
Proof.
  apply (pollSession_settles Sim.scripted Sim.url "s1" Executor.pid_cleared
           scripted_clock_advances 5 4 (mkPollOptions (Some 1000) (Some 300)));
    [reflexivity|cbn; lia|lia].
Defined.

Lemma pollSession_timeout_edge_cases_witness :
  ApiClient.pollSession Sim.scripted Sim.url 1 "s1" Executor.pid_cleared
    (mkPollOptions (Some (-5)) None) Scenario.prompt
  = (Throw "Polling timeout after -5ms", Scenario.prompt, []).
Proof.
  apply (proj1 (pollSession_timeout_edge_cases Sim.scripted Sim.url "s1"
                  Executor.pid_cleared 0 (mkPollOptions (Some (-5)) None)
                  (-5) Scenario.prompt));
    reflexivity.
Defined.

(** ** What the two procedures post and throw *)
Section Procedures.

Context {W : Type} (host : Host W).
Variable baseUrl : string.

Lemma polling_true_shape (rs : list Request) :
  polling true rs -> exists n, rs = repeat (Poll Pending) n ++ [Poll Cleared].
Proof.
  intros H. remember true as ok eqn:E. induction H; try discriminate.
  - exists 0%nat. reflexivity.
  - destruct (IHpolling E) as [n ->]. exists (S n). reflexivity.
Qed.

Lemma killSessionSilently_resolved (fuel : nat) (s : LocalSession) (w : W) :
  outcome (Executor.killSessionSilently host baseUrl fuel s w) = Ok tt ->
  exists n,
    requests (events (Executor.killSessionSilently host baseUrl fuel s w))
    = Terminate true :: repeat (Poll Pending) n ++ [Poll Cleared; Clear true].
Proof.
  rewrite exec_killSessionSilently_run.
  destruct (truthy_num (pid s)); [|discriminate].
  destruct (axios_post_kill host _ _ w) as [[d|m] w1]; [|discriminate].
  pose proof (pollLoop_polling host baseUrl (claudeSessionId s) 10000 500
                (Date_now host w1) fuel w1) as Hp.
  destruct (ApiClient.pollLoop host baseUrl fuel _ _ _ _ _ w1)
    as [[[s'|e|] w2] t2]; cbn in Hp; [|discriminate..].
  apply polling_true_shape in Hp. destruct Hp as [n Hn].
  destruct (axios_post_upsert host _ w2) as [[u|m] w3]; [|discriminate].
  intros _. exists n. cbn. rewrite requests_app, Hn. cbn.
  rewrite <- app_assoc. reflexivity.
Qed.

Lemma killSession_resolved (fuel : nat) (s : LocalSession) (w : W) :
  outcome (Executor.killSession host baseUrl fuel s w) = Ok tt ->
  exists n,
    requests (events (Executor.killSession host baseUrl fuel s w))
    = Terminate true :: repeat (Poll Pending) n
      ++ Poll Cleared
         :: (if truthy_str (happySessionId s) then [Clear true] else []).
Proof.
  rewrite exec_killSession_run.
  destruct (truthy_num (pid s)); [|discriminate].
  destruct (axios_post_kill host _ _ w) as [[d|m] w1]; [|discriminate].
  pose proof (pollLoop_polling host baseUrl (claudeSessionId s) 10000 500
                (Date_now host w1) fuel w1) as Hp.
  destruct (ApiClient.pollLoop host baseUrl fuel _ _ _ _ _ w1)
    as [[[s'|e|] w2] t2]; cbn in Hp; [|discriminate..].
  apply polling_true_shape in Hp. destruct Hp as [n Hn].
  destruct (truthy_str (happySessionId s)).
  - destruct (axios_post_upsert host _ w2) as [[u|m] w3]; [|discriminate].
    intros _. exists n. cbn. rewrite requests_app, Hn. cbn.
    rewrite <- app_assoc. reflexivity.
  - intros _. exists n. cbn. rewrite app_nil_r, Hn. reflexivity.
Qed.

(** X7. When [killSessionSilently] or [killSession] resolves, the registry
    has accepted the terminate request, then shown the process still there
    for some polls and gone at the last one, and has accepted the
    metadata-clear request ([killSession] sends that one for a session with
    a [happySessionId] only); nothing else was requested. *)
Theorem resolved_means_terminated_and_cleared
    (fuel : nat) (s : LocalSession) (w : W) :
  (outcome (Executor.killSessionSilently host baseUrl fuel s w) = Ok tt ->
   exists n,
     requests (events (Executor.killSessionSilently host baseUrl fuel s w))
     = Terminate true :: repeat (Poll Pending) n
       ++ [Poll Cleared; Clear true]) /\
  (outcome (Executor.killSession host baseUrl fuel s w) = Ok tt ->
   exists n,
     requests (events (Executor.killSession host baseUrl fuel s w))
     = Terminate true :: repeat (Poll Pending) n
       ++ Poll Cleared
          :: (if truthy_str (happySessionId s) then [Clear true] else [])).
Proof.
  split.
  - apply killSessionSilently_resolved.
  - apply killSession_resolved.
Qed.

Lemma upsert_bodies_app (a b : list Event) :
  upsert_bodies (a ++ b) = upsert_bodies a ++ upsert_bodies b.
Proof.
  induction a as [|e a IH]; [reflexivity|].
  destruct e; cbn; rewrite ?IH; reflexivity.
Qed.

Lemma poll_effects_upsert_nothing (id : string) (delay : Z) (tr : list Event) :
  Forall (poll_effect id delay) tr -> upsert_bodies tr = [].
Proof.
  induction 1 as [|e tr He _ IH]; [reflexivity|].
  destruct He as [[r ->]|[->|(l & m & ->)]]; exact IH.
Qed.

(** X8. All that the two procedures ever upsert is the session's own id
    with [happySessionId] and [happySessionTag] null, once at most; and
    [killSession] upserts nothing for a session without a
    [happySessionId]. *)
Theorem only_the_link_fields_are_cleared
    (fuel : nat) (s : LocalSession) (w : W) :
  (upsert_bodies (events (Executor.killSessionSilently host baseUrl fuel s w))
     = [] \/
   upsert_bodies (events (Executor.killSessionSilently host baseUrl fuel s w))
     = [mkUpsert (claudeSessionId s) None None]) /\
  (upsert_bodies (events (Executor.killSession host baseUrl fuel s w)) = [] \/
   upsert_bodies (events (Executor.killSession host baseUrl fuel s w))
     = [mkUpsert (claudeSessionId s) None None] /\
   truthy_str (happySessionId s) = true).
Proof.
  rewrite exec_killSessionSilently_run, exec_killSession_run.
  destruct (truthy_num (pid s)); [|split; left; reflexivity].
  destruct (axios_post_kill host _ _ w) as [[d|m] w1];
    [|split; left; reflexivity].
  pose proof (poll_effects_upsert_nothing _ _ _
                (pollLoop_effects host baseUrl (claudeSessionId s)
                   Executor.pid_cleared fuel 10000 500 (Date_now host w1) w1))
    as Hp.
  destruct (ApiClient.pollLoop host baseUrl fuel _ _ _ _ _ w1)
    as [[[s'|e|] w2] t2]; cbn in Hp;
    [|split; left; exact Hp..].
  split.
  - right. destruct (axios_post_upsert host _ w2) as [[u|m] w3];
      cbn; rewrite upsert_bodies_app, Hp; reflexivity.
  - destruct (truthy_str (happySessionId s)).
    + right. split; [|reflexivity].
      destruct (axios_post_upsert host _ w2) as [[u|m] w3];
        cbn; rewrite upsert_bodies_app, Hp; reflexivity.
    + left. cbn. rewrite app_nil_r. exact Hp.
Qed.

Lemma pollLoop_failure_messages (id : string) (p : LocalSession -> bool)
    (timeout interval startTime : Z) (fuel : nat) :
  forall (w : W) (e : string),
    outcome (ApiClient.pollLoop host baseUrl fuel id p timeout interval
               startTime w) = Throw e ->
    e = "Cannot fetch session " +++ id \/
    e = "Session " +++ id +++ " not found" \/
    e = "Polling timeout after " +++ show_num timeout +++ "ms".
Proof.
  induction fuel as [|fuel IH]; intros w e; [discriminate|].
  rewrite pollLoop_step.
  destruct (Date_now host w - startTime <? timeout); [|blame].
  destruct (axios_get_sessions host (poll_params id) w) as [[d|m] w1];
    [|blame].
  destruct (list_or_empty d) as [|s0 rest]; [blame|].
  destruct (p s0); [discriminate|]. apply IH.
Qed.

(** X9. Whatever goes wrong, [killSessionSilently] and [killSession] throw
    one of six messages, each naming the step that failed and the session:
    the message of the transport (which goes to the console) never reaches
    the caller. *)
Theorem kill_workflow_throws_one_of_six_messages
    (fuel : nat) (s : LocalSession) (w : W) (e : string) :
  (outcome (Executor.killSessionSilently host baseUrl fuel s w) = Throw e ->
   In e (failure_messages "Session has no PID to kill" (claudeSessionId s)))
  /\
  (outcome (Executor.killSession host baseUrl fuel s w) = Throw e ->
   In e (failure_messages "Session has no PID" (claudeSessionId s))).
Proof.
  rewrite exec_killSessionSilently_run, exec_killSession_run.
  unfold failure_messages.
  destruct (truthy_num (pid s));
    [|split; intros E; injection E as <-; cbn; auto].
  destruct (axios_post_kill host _ _ w) as [[d|m] w1];
    [|split; intros E; injection E as <-; cbn; auto].
  pose proof (pollLoop_failure_messages (claudeSessionId s)
                Executor.pid_cleared 10000 500 (Date_now host w1) fuel w1)
    as Hp.
  destruct (ApiClient.pollLoop host baseUrl fuel _ _ _ _ _ w1)
    as [[[s'|e'|] w2] t2]; cbn [outcome fst] in *.
  - split.
    + destruct (axios_post_upsert host _ w2) as [[u|m] w3];
        [discriminate|intros E; injection E as <-; cbn; auto 10].
    + destruct (truthy_str (happySessionId s)); [|discriminate].
      destruct (axios_post_upsert host _ w2) as [[u|m] w3];
        [discriminate|intros E; injection E as <-; cbn; auto 10].
  - split; intros E; injection E as <-;
      destruct (Hp e' eq_refl) as [->|[->| ->]]; cbn; auto 10.
  - split; discriminate.
Qed.

End Procedures.

Lemma resolved_means_terminated_and_cleared_witness :
  exists n,
    requests (events (Executor.killSession Sim.scripted Sim.url 30 Sim.s1
                        (Sim.mkWorld 7 Sim.accepted_kill
                           [Sim.seen Sim.s1; Sim.seen Sim.s1]
                           (Sim.seen Sim.s1_gone) (HttpOk tt))))
    = Terminate true :: repeat (Poll Pending) n ++ [Poll Cleared; Clear true].
Proof.
  apply (proj2 (resolved_means_terminated_and_cleared Sim.scripted Sim.url 30
                  Sim.s1
                  (Sim.mkWorld 7 Sim.accepted_kill
                     [Sim.seen Sim.s1; Sim.seen Sim.s1]
                     (Sim.seen Sim.s1_gone) (HttpOk tt)))).
  reflexivity.
Defined.

Lemma kill_workflow_throws_one_of_six_messages_witness :
  In "Cannot kill session s1-4242-abcdef"
     (failure_messages "Session has no PID" "s1-4242-abcdef").
Proof.
  apply (proj2 (kill_workflow_throws_one_of_six_messages Sim.scripted Sim.url
                  30 Sim.s1 Scenario.server_down
                  "Cannot kill session s1-4242-abcdef")).
  reflexivity.
Defined.

(** ** What the user is told *)
Section Messages.

Context {W : Type} (host : Host W).
Variable baseUrl : string.

Lemma poll_effects_no_info (id : string) (delay : Z) (tr : list Event)
    (msg : string) :
  Forall (poll_effect id delay) tr -> ~ In (EvInfo msg) tr.
Proof.
  induction 1 as [|e tr He _ IH]; [intros []|].
  intros [E|H]; [|exact (IH H)].
  destruct He as [[r ->]|[->|(l & m & ->)]]; discriminate.
Qed.

Lemma killSessionSilently_no_info (fuel : nat) (s : LocalSession) (w : W)
    (msg : string) :
  ~ In (EvInfo msg)
       (events (Executor.killSessionSilently host baseUrl fuel s w)).
Proof.
  rewrite exec_killSessionSilently_run.
  destruct (truthy_num (pid s)); [|intros []].
  destruct (axios_post_kill host _ _ w) as [[d|m] w1];
    [|cbn; intuition discriminate].
  pose proof (poll_effects_no_info _ _ _ msg
                (pollLoop_effects host baseUrl (claudeSessionId s)
                   Executor.pid_cleared fuel 10000 500 (Date_now host w1) w1))
    as Hp.
  destruct (ApiClient.pollLoop host baseUrl fuel _ _ _ _ _ w1)
    as [[[s'|e|] w2] t2]; cbn [events snd] in *;
    [|intros [E|H]; [discriminate|auto]..].
  destruct (axios_post_upsert host _ w2) as [[u|m] w3]; cbn [events snd];
    (intros [E|H]; [discriminate|]); apply in_app_or in H;
    destruct H as [H|H]; auto; cbn in H; intuition discriminate.
Qed.

Lemma killSession_no_info (fuel : nat) (s : LocalSession) (w : W)
    (msg : string) :
  ~ In (EvInfo msg) (events (Executor.killSession host baseUrl fuel s w)).
Proof.
  rewrite exec_killSession_run.
  destruct (truthy_num (pid s)); [|intros []].
  destruct (axios_post_kill host _ _ w) as [[d|m] w1];
    [|cbn; intuition discriminate].
  pose proof (poll_effects_no_info _ _ _ msg
                (pollLoop_effects host baseUrl (claudeSessionId s)
                   Executor.pid_cleared fuel 10000 500 (Date_now host w1) w1))
    as Hp.
  destruct (ApiClient.pollLoop host baseUrl fuel _ _ _ _ _ w1)
    as [[[s'|e|] w2] t2]; cbn [events snd] in *;
    [|intros [E|H]; [discriminate|auto]..].
  destruct (truthy_str (happySessionId s)).
  - destruct (axios_post_upsert host _ w2) as [[u|m] w3]; cbn [events snd];
      (intros [E|H]; [discriminate|]); apply in_app_or in H;
      destruct H as [H|H]; auto; cbn in H; intuition discriminate.
  - cbn [events snd]. rewrite app_nil_r. intros [E|H]; [discriminate|auto].
Qed.

(** X10. [resumeSessionInTerminal] tells the user "Session ... terminated.
    Ready to resume locally." only when the kill workflow went all the way:
    the registry accepted the terminate request, a poll showed the process
    gone, and the metadata-clear request was accepted. *)
Theorem resume_announces_termination_only_when_done
    (fuel : nat) (s : LocalSession) (w : W) :
  In (terminated_info s)
     (events (Executor.resumeSessionInTerminal host baseUrl fuel s w)) ->
  kills_first s = true /\
  outcome (Executor.killSessionSilently host baseUrl fuel s w) = Ok tt /\
  exists n,
    requests (events (Executor.resumeSessionInTerminal host baseUrl fuel s w))
    = Terminate true :: repeat (Poll Pending) n ++ [Poll Cleared; Clear true].
Proof.
  unfold terminated_info. rewrite resumeSessionInTerminal_run.
  pose proof (killSessionSilently_resolved host baseUrl fuel s w) as Hdone.
  pose proof (killSessionSilently_no_info fuel s w) as Hquiet.
  destruct (kills_first s).
  - destruct (Executor.killSessionSilently host baseUrl fuel s w)
      as [[[[]|e|] w1] t1]; cbn [outcome events fst snd] in *.
    + intros _. split; [reflexivity|]. split; [reflexivity|].
      destruct (Hdone eq_refl) as [n Hn]. exists n.
      cbn. rewrite !requests_app, Hn. cbn. rewrite !app_nil_r. reflexivity.
    + intros [E|H]; [discriminate|].
      apply in_app_or in H. destruct H as [H|H].
      * apply in_app_or in H. destruct H as [H|[H|[]]];
          [destruct (Hquiet _ H)|discriminate].
      * cbn in H. intuition discriminate.
    + intros [E|H]; [discriminate|]. destruct (Hquiet _ H).
  - cbn. intuition discriminate.
Qed.

(** X11. The kill command never throws; unless the user picks "Kill
    Session" in the modal question it performs no effect of the executor;
    and it tells the user "Session ... killed" only when [killSession]
    resolved, that is after the registry accepted the terminate request and
    a poll showed the process gone. *)
Theorem kill_command_asks_first_and_reports_truthfully
    (fuel : nat) (item : Extension.Item) (result : option string) (w : W) :
  let run := Extension.killSessionCommand host baseUrl fuel item result w in
  (forall e, Extension.result_of run <> Throw e) /\
  (Extension.confirmed result = false ->
   Extension.core_events (Extension.effects_of run) = [] /\
   Extension.world_of run = w) /\
  (forall msg,
      In (Extension.Core (EvInfo msg)) (Extension.effects_of run) ->
      exists s n,
        item = Some (Some s) /\
        Extension.confirmed result = true /\
        msg = "Session " +++ slice0 8 (claudeSessionId s) +++ " killed" /\
        requests (Extension.core_events (Extension.effects_of run))
        = Terminate true :: repeat (Poll Pending) n
          ++ Poll Cleared
             :: (if truthy_str (happySessionId s) then [Clear true] else [])).
Proof.
  assert (Hcore : forall t : list Event,
             Extension.core_events (map Extension.Core t) = t).
  { induction t as [|e t IH]; cbn; [reflexivity|]. f_equal. exact IH. }
  assert (Hcore_app : forall a b,
             Extension.core_events (a ++ b)
             = Extension.core_events a ++ Extension.core_events b).
  { intros a b. unfold Extension.core_events. apply flat_map_app. }
  cbv zeta. unfold Extension.killSessionCommand.
  destruct item as [[s|]|];
    [|repeat split; try discriminate; cbn; intuition discriminate..].
  pose proof (killSession_resolved host baseUrl fuel s w) as Hdone.
  pose proof (killSession_no_info fuel s w) as Hquiet.
  destruct (Extension.confirmed result);
    [|repeat split; try discriminate; cbn; intuition discriminate].
  destruct (Executor.killSession host baseUrl fuel s w)
    as [[[[]|e|] w1] t1];
    cbn [outcome events world fst snd Extension.result_of
         Extension.world_of Extension.effects_of] in *.
  - split; [discriminate|]. split; [discriminate|].
    intros msg [E|H]; [discriminate|].
    apply in_app_or in H. destruct H as [H|H].
    + apply in_map_iff in H. destruct H as (x & E & H).
      injection E as ->. destruct (Hquiet _ H).
    + destruct H as [E|[E|[]]]; [|discriminate]. injection E as <-.
      destruct (Hdone eq_refl) as [n Hn]. exists s, n.
      repeat split. cbn. rewrite Hcore_app, Hcore, requests_app, Hn. cbn.
      rewrite !app_nil_r. reflexivity.
  - split; [discriminate|]. split; [discriminate|].
    intros msg [E|H]; [discriminate|].
    apply in_app_or in H. destruct H as [H|H].
    + apply in_map_iff in H. destruct H as (x & E & H).
      injection E as ->. destruct (Hquiet _ H).
    + destruct H as [E|[]]. discriminate.
  - split; [discriminate|]. split; [discriminate|].
    intros msg [E|H]; [discriminate|].
    apply in_map_iff in H. destruct H as (x & E & H).
    injection E as ->. destruct (Hquiet _ H).
Qed.

End Messages.

Lemma resume_announces_termination_only_when_done_witness :
  kills_first Sim.s1 = true /\
  outcome (Executor.killSessionSilently Sim.scripted Sim.url 30 Sim.s1
             Scenario.prompt) = Ok tt /\
  exists n,
    requests (events (Executor.resumeSessionInTerminal Sim.scripted Sim.url 30
                        Sim.s1 Scenario.prompt))
    = Terminate true :: repeat (Poll Pending) n ++ [Poll Cleared; Clear true].
Proof.
  apply (resume_announces_termination_only_when_done Sim.scripted Sim.url 30
           Sim.s1 Scenario.prompt).
  cbn. tauto.
Defined.

Lemma kill_command_asks_first_and_reports_truthfully_witness :
  Extension.core_events
    (Extension.effects_of
       (Extension.killSessionCommand Sim.scripted Sim.url 30
          (Some (Some Sim.s1)) None Scenario.prompt)) = [] /\
  Extension.world_of
    (Extension.killSessionCommand Sim.scripted Sim.url 30
       (Some (Some Sim.s1)) None Scenario.prompt) = Scenario.prompt.
Proof.
  apply (proj1 (proj2
    (kill_command_asks_first_and_reports_truthfully Sim.scripted Sim.url 30
       (Some (Some Sim.s1)) None Scenario.prompt))).
  reflexivity.
Defined.

(** ** The tree of sessions *)

(** X12. For a session last seen at or before the current time,
    [formatLastSeen] shows its age rounded down to whole seconds, minutes,
    hours or days, in the largest of these units that gives at least 1
    (seconds below one minute): the age lies between the number shown and
    the next, in that unit. *)
Theorem formatLastSeen_rounds_the_age_down (now timestamp : Z) :
  timestamp <= now ->
  exists n ms suffix,
    Tree.formatLastSeen now timestamp = show_num n +++ suffix /\
    In (ms, suffix) Tree.age_units /\
    n * ms <= now - timestamp < (n + 1) * ms /\
    (ms = 1000 -> 0 <= n < 60) /\
    (ms = 60000 -> 1 <= n < 60) /\
    (ms = 3600000 -> 1 <= n < 24) /\
    (ms = 86400000 -> 1 <= n).
Proof.
  intros Hle. unfold Tree.formatLastSeen, Tree.age_units. cbv zeta.
  set (diff := now - timestamp). assert (Hd : 0 <= diff) by (unfold diff; lia).
  clearbody diff.
  pose proof (Z.div_mod diff 1000 ltac:(lia)) as H1.
  pose proof (Z.mod_pos_bound diff 1000 ltac:(lia)) as H2.
  set (seconds := diff / 1000) in *. clearbody seconds.
  destruct (seconds <? 60) eqn:E1.
  { apply Z.ltb_lt in E1. exists seconds, 1000, "s ago".
    split; [reflexivity|]. split; [cbn; auto|]. lia. }
  apply Z.ltb_ge in E1.
  destruct (seconds <? 3600) eqn:E2.
  { apply Z.ltb_lt in E2.
    pose proof (Z.div_mod seconds 60 ltac:(lia)) as H3.
    pose proof (Z.mod_pos_bound seconds 60 ltac:(lia)) as H4.
    exists (seconds / 60), 60000, "m ago".
    split; [reflexivity|]. split; [cbn; auto|]. lia. }
  apply Z.ltb_ge in E2.
  destruct (seconds <? 86400) eqn:E3.
  { apply Z.ltb_lt in E3.
    pose proof (Z.div_mod seconds 3600 ltac:(lia)) as H3.
    pose proof (Z.mod_pos_bound seconds 3600 ltac:(lia)) as H4.
    exists (seconds / 3600), 3600000, "h ago".
    split; [reflexivity|]. split; [cbn; auto|]. lia. }
  apply Z.ltb_ge in E3.
  pose proof (Z.div_mod seconds 86400 ltac:(lia)) as H3.
  pose proof (Z.mod_pos_bound seconds 86400 ltac:(lia)) as H4.
  exists (seconds / 86400), 86400000, "d ago".
  split; [reflexivity|]. split; [cbn; auto 10|]. lia.
Qed.

Lemma formatLastSeen_rounds_the_age_down_witness :
  exists n ms suffix,
    Tree.formatLastSeen 1700000000000 1699999000000 = show_num n +++ suffix /\
    In (ms, suffix) Tree.age_units /\
    n * ms <= 1700000000000 - 1699999000000 < (n + 1) * ms /\
    (ms = 1000 -> 0 <= n < 60) /\
    (ms = 60000 -> 1 <= n < 60) /\
    (ms = 3600000 -> 1 <= n < 24) /\
    (ms = 86400000 -> 1 <= n).
Proof.
  apply (formatLastSeen_rounds_the_age_down 1700000000000 1699999000000).
  lia.
Defined.

(** X13. For a session whose [lastSeenAt] is ahead of the clock,
    [formatLastSeen] shows a negative number of seconds, however far ahead
    it is: minutes, hours and days are never used. *)
Theorem formatLastSeen_ahead_of_the_clock (now timestamp : Z) :
  now < timestamp ->
  Tree.formatLastSeen now timestamp
    = show_num ((now - timestamp) / 1000) +++ "s ago" /\
  (now - timestamp) / 1000 < 0.
Proof.
  intros Hlt. unfold Tree.formatLastSeen. cbv zeta.
  assert (Hneg : (now - timestamp) / 1000 < 0).
  { apply Z.div_lt_upper_bound; lia. }
  replace ((now - timestamp) / 1000 <? 60) with true
    by (symmetry; apply Z.ltb_lt; lia).
  split; [reflexivity|exact Hneg].
Qed.

Lemma formatLastSeen_ahead_of_the_clock_witness :
  Tree.formatLastSeen 1700000000000 1700172800000 = "-172800s ago" /\
  (1700000000000 - 1700172800000) / 1000 < 0.
Proof.
  apply (formatLastSeen_ahead_of_the_clock 1700000000000 1700172800000).
  lia.
Defined.

(** ** Sorting as the tree does *)
Section Sorting.

Context {A : Type}.
Variable key : A -> Z.

Lemma insert_permutation (compare : A -> A -> Z) (x : A) (l : list A) :
  Permutation (Tree.insert compare x l) (x :: l).
Proof.
  induction l as [|y l IH]; cbn; [reflexivity|].
  destruct (compare x y <=? 0); [reflexivity|].
  rewrite IH. apply perm_swap.
Qed.

Lemma sort_permutation (compare : A -> A -> Z) (l : list A) :
  Permutation (Tree.sort compare l) l.
Proof.
  induction l as [|x l IH]; cbn; [reflexivity|].
  rewrite insert_permutation. constructor. exact IH.
Qed.

Lemma insert_descending (x : A) (l : list A) :
  StronglySorted (fun a b => key b <= key a) l ->
  StronglySorted (fun a b => key b <= key a)
    (Tree.insert (Tree.descending key) x l).
Proof.
  induction 1 as [|y l Hs IH Hy]; cbn; [repeat constructor|].
  unfold Tree.descending at 1.
  destruct (key y - key x <=? 0) eqn:E.
  - apply Z.leb_le in E. constructor; [constructor; assumption|].
    constructor; [lia|].
    apply Forall_forall. intros z Hz.
    rewrite Forall_forall in Hy. specialize (Hy z Hz). cbn in Hy. lia.
  - apply Z.leb_gt in E. constructor; [exact IH|].
    apply Forall_forall. intros z Hz.
    apply (Permutation_in _ (insert_permutation _ x l)) in Hz.
    destruct Hz as [<-|Hz]; [lia|].
    rewrite Forall_forall in Hy. exact (Hy z Hz).
Qed.

Lemma sort_descending (l : list A) :
  StronglySorted (fun a b => key b <= key a)
    (Tree.sort (Tree.descending key) l).
Proof.
  induction l as [|x l IH]; cbn; [constructor|].
  apply insert_descending, IH.
Qed.

Lemma insert_keeps_equals (k : Z) (x : A) (l : list A) :
  filter (fun a => key a =? k) (Tree.insert (Tree.descending key) x l)
  = filter (fun a => key a =? k) (x :: l).
Proof.
  induction l as [|y l IH]; [reflexivity|].
  cbn [Tree.insert]. unfold Tree.descending at 1.
  destruct (key y - key x <=? 0) eqn:E; [reflexivity|].
  apply Z.leb_gt in E. cbn [filter] in *. rewrite IH.
  destruct (key x =? k) eqn:Ex; [|reflexivity].
  apply Z.eqb_eq in Ex.
  replace (key y =? k) with false by (symmetry; apply Z.eqb_neq; lia).
  reflexivity.
Qed.

Lemma sort_keeps_equals (k : Z) (l : list A) :
  filter (fun a => key a =? k) (Tree.sort (Tree.descending key) l)
  = filter (fun a => key a =? k) l.
Proof.
  induction l as [|x l IH]; [reflexivity|].
  cbn [Tree.sort fold_right]. rewrite insert_keeps_equals.
  cbn [filter]. fold (Tree.sort (Tree.descending key) l). rewrite IH.
  reflexivity.
Qed.

End Sorting.

Section Children.

Context {W : Type} (host : Host W).
Variable listSessions100 : M W (list Tree.Row).

(** X14. Expanding a directory asks nothing of the registry:
    [getChildren] resolves with one item for each session of the directory,
    no session lost or repeated, the most recently seen first, and sessions
    seen at the same time in the order they had. Expanding a session item
    gives nothing. *)
Theorem directory_children_most_recent_first
    (dirPath : string) (sessions : list Tree.Row) (t : Z) (w : W) :
  exists sorted,
    Tree.getChildren host listSessions100
      (Some (Tree.DirectoryTreeItem dirPath sessions t)) w
    = (Ok (map Tree.SessionTreeItem sorted), w, []) /\
    Permutation sorted sessions /\
    StronglySorted
      (fun a b => Tree.lastSeenAt b <= Tree.lastSeenAt a) sorted /\
    (forall k,
        filter (fun r => Tree.lastSeenAt r =? k) sorted
        = filter (fun r => Tree.lastSeenAt r =? k) sessions) /\
    (forall r,
        Tree.getChildren host listSessions100 (Some (Tree.SessionTreeItem r)) w
        = (Ok [], w, [])).
Proof.
  exists (Tree.sort (Tree.descending Tree.lastSeenAt) sessions).
  split; [reflexivity|]. split; [apply sort_permutation|].
  split; [apply sort_descending|]. split; [|reflexivity].
  intros k. apply sort_keeps_equals.
Qed.

End Children.

(** ** Grouping the sessions by directory *)

Lemma sessions_in_snoc (k : string) (l : list Tree.Row) (r : Tree.Row) :
  sessions_in k (l ++ [r])
  = sessions_in k l ++ (if String.eqb (Tree.dir_key r) k then [r] else []).
Proof.
  unfold sessions_in. rewrite filter_app. cbn.
  destruct (String.eqb (Tree.dir_key r) k); reflexivity.
Qed.

Lemma push_to_keys (key : string) (r : Tree.Row)
    (g : list (string * list Tree.Row)) :
  (In key (map fst g) -> map fst (Tree.push_to key r g) = map fst g) /\
  (~ In key (map fst g) -> map fst (Tree.push_to key r g) = map fst g ++ [key]).
Proof.
  induction g as [|[k rs] g [IHin IHout]]; cbn.
  - split; [intros []|reflexivity].
  - destruct (String.eqb k key) eqn:E.
    + apply String.eqb_eq in E. subst k. split; [reflexivity|].
      intros H. destruct H. left. reflexivity.
    + apply String.eqb_neq in E. cbn. split.
      * intros [H|H]; [contradiction|]. rewrite (IHin H). reflexivity.
      * intros H. rewrite IHout; [reflexivity|]. intros Hin. apply H. right.
        exact Hin.
Qed.

Lemma push_to_entries (key : string) (r : Tree.Row)
    (g : list (string * list Tree.Row)) :
  NoDup (map fst g) ->
  forall k rs,
    In (k, rs) (Tree.push_to key r g) ->
    (k <> key /\ In (k, rs) g) \/
    (k = key /\
     exists rs0, rs = rs0 ++ [r] /\
                 (In (key, rs0) g \/ (rs0 = [] /\ ~ In key (map fst g)))).
Proof.
  induction g as [|[k0 rs0] g IH]; intros Hnd k rs; cbn.
  - intros [E|[]]. injection E as <- <-. right. split; [reflexivity|].
    exists []. split; [reflexivity|]. right. split; [reflexivity|]. intros [].
  - inversion Hnd as [|? ? Hout Hnd']; subst.
    destruct (String.eqb k0 key) eqn:E.
    + apply String.eqb_eq in E. subst k0. intros [H|H].
      * injection H as <- <-. right. split; [reflexivity|].
        exists rs0. split; [reflexivity|]. left. left. reflexivity.
      * left. split; [|right; exact H].
        intros ->. apply Hout. apply (in_map fst) in H. exact H.
    + apply String.eqb_neq in E. intros [H|H].
      * injection H as <- <-. left. split; [exact E|left; reflexivity].
      * destruct (IH Hnd' _ _ H) as [[Hk Hin]|[Hk (rs1 & Hrs & Hcase)]].
        -- left. split; [exact Hk|right; exact Hin].
        -- right. split; [exact Hk|]. exists rs1. split; [exact Hrs|].
           destruct Hcase as [Hin|[-> Hno]].
           ++ left. right. exact Hin.
           ++ right. split; [reflexivity|]. cbn. intros [Heq|Hin];
                [contradiction|exact (Hno Hin)].
Qed.

Lemma push_to_permutation (key : string) (r : Tree.Row)
    (g : list (string * list Tree.Row)) :
  Permutation (List.concat (map snd (Tree.push_to key r g)))
              (List.concat (map snd g) ++ [r]).
Proof.
  induction g as [|[k rs] g IH]; cbn; [reflexivity|].
  destruct (String.eqb k key); cbn.
  - rewrite <- !app_assoc. apply Permutation_app_head.
    apply Permutation_app_comm.
  - rewrite <- app_assoc. apply Permutation_app_head. exact IH.
Qed.

Lemma sessions_in_absent (k : string) (l : list Tree.Row)
    (keys : list string) :
  (forall r, In r l -> In (Tree.dir_key r) keys) ->
  ~ In k keys ->
  sessions_in k l = [].
Proof.
  intros Hkeys Hno. unfold sessions_in.
  induction l as [|x l IH]; [reflexivity|]. cbn.
  destruct (String.eqb (Tree.dir_key x) k) eqn:E.
  - apply String.eqb_eq in E. destruct Hno. rewrite <- E. apply Hkeys.
    left. reflexivity.
  - apply IH. intros r Hr. apply Hkeys. right. exact Hr.
Qed.

Lemma push_to_grouped (l : list Tree.Row) (r : Tree.Row)
    (g : list (string * list Tree.Row)) :
  grouped l g -> grouped (l ++ [r]) (Tree.push_to (Tree.dir_key r) r g).
Proof.
  intros (Hnd & Hrows & Hkeys & Hperm).
  destruct (push_to_keys (Tree.dir_key r) r g) as [Kin Kout].
  assert (Hmono : forall k, In k (map fst g) ->
                            In k (map fst (Tree.push_to (Tree.dir_key r) r g))).
  { intros k Hk. destruct (in_dec string_dec (Tree.dir_key r) (map fst g))
      as [Hin|Hout].
    - rewrite (Kin Hin). exact Hk.
    - rewrite (Kout Hout). apply in_or_app. left. exact Hk. }
  assert (Hnew : In (Tree.dir_key r)
                    (map fst (Tree.push_to (Tree.dir_key r) r g))).
  { destruct (in_dec string_dec (Tree.dir_key r) (map fst g)) as [Hin|Hout].
    - rewrite (Kin Hin). exact Hin.
    - rewrite (Kout Hout). apply in_or_app. right. left. reflexivity. }
  split; [|split; [|split]].
  - destruct (in_dec string_dec (Tree.dir_key r) (map fst g)) as [Hin|Hout].
    + rewrite (Kin Hin). exact Hnd.
    + rewrite (Kout Hout).
      apply NoDup_app; [exact Hnd|repeat constructor; auto|].
      intros k Hk [<-|[]]. exact (Hout Hk).
  - intros k rs Hin. rewrite sessions_in_snoc.
    destruct (push_to_entries _ r g Hnd _ _ Hin)
      as [[Hk Hg]|[-> (rs0 & -> & Hcase)]].
    + destruct (Hrows _ _ Hg) as [Hne ->]. split; [exact Hne|].
      replace (String.eqb (Tree.dir_key r) k) with false
        by (symmetry; apply String.eqb_neq; congruence).
      rewrite app_nil_r. reflexivity.
    + rewrite String.eqb_refl. split; [destruct rs0; discriminate|].
      destruct Hcase as [Hg|[-> Hno]].
      * destruct (Hrows _ _ Hg) as [_ <-]. reflexivity.
      * rewrite (sessions_in_absent _ _ _ Hkeys Hno). reflexivity.
  - intros x Hx. apply in_app_or in Hx. destruct Hx as [Hx|[<-|[]]].
    + apply Hmono, Hkeys, Hx.
    + exact Hnew.
  - rewrite push_to_permutation. apply Permutation_app_tail. exact Hperm.
Qed.

Lemma groupByCwd_grouped (sessions : list Tree.Row) :
  grouped sessions (Tree.groupByCwd sessions).
Proof.
  unfold Tree.groupByCwd.
  assert (H : forall l l0 g,
             grouped l0 g ->
             grouped (l0 ++ l)
               (fold_left (fun groups r =>
                             Tree.push_to (Tree.dir_key r) r groups) l g)).
  { induction l as [|r l IH]; intros l0 g Hg; cbn.
    - rewrite app_nil_r. exact Hg.
    - change (r :: l) with ([r] ++ l). rewrite app_assoc.
      apply IH, push_to_grouped, Hg. }
  apply (H sessions [] []). split; [constructor|]. split; [intros k rs []|].
  split; [intros r []|constructor].
Qed.

Lemma num_or_zero (t : Z) : num_or (Some t) 0 = t.
Proof.
  unfold num_or. cbn. destruct (Z.eqb_spec t 0) as [->|_]; reflexivity.
Qed.

Lemma fold_max_bounds (l : list Z) :
  forall a,
    a <= fold_left Z.max l a /\
    (forall x, In x l -> x <= fold_left Z.max l a) /\
    In (fold_left Z.max l a) (a :: l).
Proof.
  induction l as [|y l IH]; intros a; cbn.
  - split; [lia|]. split; [intros x []|left; reflexivity].
  - destruct (IH (Z.max a y)) as (H1 & H2 & H3).
    split; [lia|]. split.
    + intros x [<-|Hx]; [lia|exact (H2 x Hx)].
    + destruct H3 as [H3|H3]; [|right; right; exact H3].
      destruct (Z.max_spec a y) as [[_ E]|[_ E]]; rewrite E in *.
      * right. left. exact H3.
      * left. exact H3.
Qed.

Lemma most_recent_is_the_maximum (rs : list Tree.Row) :
  rs <> [] ->
  (forall r, In r rs -> Tree.lastSeenAt r <= Tree.most_recent rs) /\
  (exists r, In r rs /\ Tree.lastSeenAt r = Tree.most_recent rs).
Proof.
  destruct rs as [|r0 rs]; [contradiction|]. intros _. cbn.
  destruct (fold_max_bounds (map Tree.lastSeenAt rs) (Tree.lastSeenAt r0))
    as (H1 & H2 & H3).
  split.
  - intros r [<-|Hr]; [exact H1|]. apply H2, in_map, Hr.
  - destruct H3 as [H3|H3].
    + exists r0. split; [left; reflexivity|exact H3].
    + apply in_map_iff in H3. destruct H3 as (r & E & Hr).
      exists r. split; [right; exact Hr|exact E].
Qed.

Lemma NoDup_map_Some {A : Type} (l : list A) :
  NoDup l -> NoDup (map Some l).
Proof.
  induction 1 as [|x l Hx _ IH]; cbn; constructor; [|exact IH].
  intros H. apply in_map_iff in H. destruct H as (y & E & Hy).
  injection E as ->. exact (Hx Hy).
Qed.

(** ** The root of the tree *)
Section Root.

Context {W : Type} (host : Host W).
Variable listSessions100 : M W (list Tree.Row).

Lemma getRootChildren_run (w : W) :
  Tree.getRootChildren host listSessions100 w =
  match listSessions100 w with
  | (Ok [], w1, t1) =>
      (Ok [Tree.EmptyStateItem (Date_now host w1)], w1, t1 ++ [] ++ [])
  | (Ok (r :: rs), w1, t1) => (Ok (Tree.directories (r :: rs)), w1, t1 ++ [])
  | (Throw e, w1, t1) =>
      (Ok [Tree.ErrorItem e (Date_now host w1)], w1, t1 ++ ([] ++ []))
  | (OutOfFuel, w1, t1) => (OutOfFuel, w1, t1)
  end.
Proof.
  unfold Tree.getRootChildren, try_catch, bind.
  destruct (listSessions100 w) as [[[[|r rs]|e|] w1] t1]; reflexivity.
Qed.

Lemma directories_items (sessions : list Tree.Row) (item : Tree.TreeElement) :
  In item (Tree.directories sessions) <->
  exists k rs,
    In (k, rs) (Tree.groupByCwd sessions) /\
    item = Tree.DirectoryTreeItem k rs (Tree.most_recent rs).
Proof.
  unfold Tree.directories. split.
  - intros H. apply (Permutation_in _ (sort_permutation _ _)) in H.
    apply in_map_iff in H. destruct H as ([k rs] & <- & H). eauto.
  - intros (k & rs & H & ->).
    apply (Permutation_in _ (Permutation_sym (sort_permutation _ _))).
    apply in_map_iff. exists (k, rs). split; [reflexivity|exact H].
Qed.

(** X15. When the listing resolves with some sessions, the root of the
    tree is made of directory items, one for each directory that some
    session has (sessions without one go under "Unknown Directory"), no
    directory twice; an item holds exactly the sessions of its directory, in
    the order of the listing, so that every session is shown once, under
    its own directory. *)
Theorem root_shows_every_session_under_its_directory
    (w w1 : W) (sessions : list Tree.Row) (t1 : list Event) :
  listSessions100 w = (Ok sessions, w1, t1) ->
  sessions <> [] ->
  exists items,
    Tree.getRootChildren host listSessions100 w = (Ok items, w1, t1) /\
    (forall item,
        In item items ->
        exists dirPath,
          item = Tree.DirectoryTreeItem dirPath (sessions_in dirPath sessions)
                   (Tree.most_recent (sessions_in dirPath sessions)) /\
          sessions_in dirPath sessions <> []) /\
    NoDup (map path_of items) /\
    (forall r,
        In r sessions -> In (Some (Tree.dir_key r)) (map path_of items)) /\
    Permutation (flat_map Tree.sessions_of items) sessions.
Proof.
  intros E Hne. exists (Tree.directories sessions).
  destruct (groupByCwd_grouped sessions) as (Hnd & Hrows & Hkeys & Hperm).
  assert (Hitems : Permutation (Tree.directories sessions)
                     (map (fun g => Tree.DirectoryTreeItem (fst g) (snd g)
                                      (Tree.most_recent (snd g)))
                          (Tree.groupByCwd sessions))).
  { apply sort_permutation. }
  assert (Hpaths : Permutation (map path_of (Tree.directories sessions))
                     (map Some (map fst (Tree.groupByCwd sessions)))).
  { rewrite Hitems, !map_map. reflexivity. }
  split; [|split; [|split; [|split]]].
  - rewrite getRootChildren_run, E.
    destruct sessions as [|r rs]; [contradiction|].
    rewrite app_nil_r. reflexivity.
  - intros item Hin. apply directories_items in Hin.
    destruct Hin as (k & rs & Hg & ->). destruct (Hrows _ _ Hg) as [Hrs ->].
    exists k. split; [reflexivity|exact Hrs].
  - apply (Permutation_NoDup (Permutation_sym Hpaths)).
    apply NoDup_map_Some, Hnd.
  - intros r Hr.
    apply (Permutation_in _ (Permutation_sym Hpaths)).
    apply in_map, Hkeys, Hr.
  - rewrite Hitems, flat_map_concat_map, map_map. cbn. exact Hperm.
Qed.

(** X16. The directory items of the root carry the time their most
    recently seen session was last seen, and come in the order of that
    time, the most recent directory first. *)
Theorem root_directories_most_recent_first
    (w w1 : W) (sessions : list Tree.Row) (t1 : list Event) :
  listSessions100 w = (Ok sessions, w1, t1) ->
  sessions <> [] ->
  exists items,
    Tree.getRootChildren host listSessions100 w = (Ok items, w1, t1) /\
    StronglySorted (fun a b => Tree.time_of b <= Tree.time_of a) items /\
    (forall dirPath rs t,
        In (Tree.DirectoryTreeItem dirPath rs t) items ->
        Tree.time_of (Tree.DirectoryTreeItem dirPath rs t) = t /\
        (forall r, In r rs -> Tree.lastSeenAt r <= t) /\
        (exists r, In r rs /\ Tree.lastSeenAt r = t)).
Proof.
  intros E Hne. exists (Tree.directories sessions).
  destruct (groupByCwd_grouped sessions) as (_ & Hrows & _ & _).
  split; [|split].
  - rewrite getRootChildren_run, E.
    destruct sessions as [|r rs]; [contradiction|].
    rewrite app_nil_r. reflexivity.
  - apply sort_descending.
  - intros dirPath rs t Hin. apply directories_items in Hin.
    destruct Hin as (k & rs' & Hg & Eq). injection Eq as -> -> ->.
    destruct (Hrows _ _ Hg) as [Hrs _].
    split; [apply num_or_zero|]. apply most_recent_is_the_maximum, Hrs.
Qed.

(** X17. [getRootChildren] never throws and never shows an empty tree, and
    does nothing besides the listing: when the listing throws, the root is
    the one error item that carries the message thrown; when it resolves
    with no session, the one "No sessions found" item; otherwise at least
    one directory. *)
Theorem root_is_never_empty_and_never_throws (w : W) :
  (forall e,
      outcome (Tree.getRootChildren host listSessions100 w) <> Throw e) /\
  (forall items,
      outcome (Tree.getRootChildren host listSessions100 w) = Ok items ->
      items <> []) /\
  events (Tree.getRootChildren host listSessions100 w)
    = events (listSessions100 w) /\
  world (Tree.getRootChildren host listSessions100 w)
    = world (listSessions100 w) /\
  (forall e,
      outcome (listSessions100 w) = Throw e ->
      outcome (Tree.getRootChildren host listSessions100 w)
      = Ok [Tree.ErrorItem e (Date_now host (world (listSessions100 w)))]) /\
  (outcome (listSessions100 w) = Ok [] ->
   outcome (Tree.getRootChildren host listSessions100 w)
   = Ok [Tree.EmptyStateItem (Date_now host (world (listSessions100 w)))]).
Proof.
  rewrite getRootChildren_run.
  destruct (listSessions100 w) as [[[[|r rs]|e|] w1] t1];
    cbn [outcome events world fst snd]; rewrite ?app_nil_r.
  - repeat split; try discriminate.
    intros items E. injection E as <-. discriminate.
  - repeat split; try discriminate.
    intros items E. injection E as <-.
    destruct (groupByCwd_grouped (r :: rs)) as (_ & _ & Hkeys & _).
    specialize (Hkeys r (or_introl eq_refl)).
    intros Hnil.
    assert (Hlen : List.length (Tree.directories (r :: rs))
                   = List.length (Tree.groupByCwd (r :: rs))).
    { unfold Tree.directories.
      rewrite (Permutation_length (sort_permutation _ _)).
      apply length_map. }
    rewrite Hnil in Hlen. destruct (Tree.groupByCwd (r :: rs)); [|discriminate].
    destruct Hkeys.
  - repeat split; try discriminate.
    + intros items E. injection E as <-. discriminate.
    + intros e' E. injection E as <-. reflexivity.
  - repeat split; discriminate.
Qed.

End Root.

Example root_of_the_listing :
  Tree.getRootChildren Sim.scripted Listing.resolves Scenario.prompt
  = (Ok [Tree.DirectoryTreeItem "/work/lib" [Listing.lib1] 500;
         Tree.DirectoryTreeItem "/work/app" [Listing.app1; Listing.app2] 400;
         Tree.DirectoryTreeItem "Unknown Directory" [Listing.stray] 100],
     Scenario.prompt, []).
Proof. reflexivity. Qed.

Example children_of_a_directory :
  Tree.getChildren Sim.scripted Listing.resolves
    (Some (Tree.DirectoryTreeItem "/work/app" [Listing.app1; Listing.app2] 400))
    Scenario.prompt
  = (Ok [Tree.SessionTreeItem Listing.app2; Tree.SessionTreeItem Listing.app1],
     Scenario.prompt, []).
Proof. reflexivity. Qed.

Lemma root_shows_every_session_under_its_directory_witness :
  exists items,
    Tree.getRootChildren Sim.scripted Listing.resolves Scenario.prompt
      = (Ok items, Scenario.prompt, []) /\
    (forall item,
        In item items ->
        exists dirPath,
          item = Tree.DirectoryTreeItem dirPath
                   (sessions_in dirPath Listing.rows)
                   (Tree.most_recent (sessions_in dirPath Listing.rows)) /\
          sessions_in dirPath Listing.rows <> []) /\
    NoDup (map path_of items) /\
    (forall r,
        In r Listing.rows -> In (Some (Tree.dir_key r)) (map path_of items)) /\
    Permutation (flat_map Tree.sessions_of items) Listing.rows.
Proof.
  apply (root_shows_every_session_under_its_directory Sim.scripted
           Listing.resolves Scenario.prompt Scenario.prompt Listing.rows []);
    [reflexivity|discriminate].
Defined.

Lemma root_directories_most_recent_first_witness :
  exists items,
    Tree.getRootChildren Sim.scripted Listing.resolves Scenario.prompt
      = (Ok items, Scenario.prompt, []) /\
    StronglySorted (fun a b => Tree.time_of b <= Tree.time_of a) items /\
    (forall dirPath rs t,
        In (Tree.DirectoryTreeItem dirPath rs t) items ->
        Tree.time_of (Tree.DirectoryTreeItem dirPath rs t) = t /\
        (forall r, In r rs -> Tree.lastSeenAt r <= t) /\
        (exists r, In r rs /\ Tree.lastSeenAt r = t)).
Proof.
  apply (root_directories_most_recent_first Sim.scripted Listing.resolves
           Scenario.prompt Scenario.prompt Listing.rows []);
    [reflexivity|discriminate].
Defined.

Lemma root_is_never_empty_and_never_throws_witness :
  outcome (Tree.getRootChildren Sim.scripted Listing.fails Scenario.prompt)
  = Ok [Tree.ErrorItem
          "Cannot connect to Happy server at http://127.0.0.1:3005" 0].
Proof.
  apply (proj1 (proj2 (proj2 (proj2 (proj2
    (root_is_never_empty_and_never_throws Sim.scripted Listing.fails
       Scenario.prompt)))))).
  reflexivity.
Defined.

(** ** The resume path and the kill path on a session without a link *)
Section Unlinked.

Context {W : Type} (host : Host W).
Variable baseUrl : string.

(** X18. For a session without a [happySessionId] the two procedures
    request the same of the registry up to the end of the polls; then
    [killSession] is done, while [killSessionSilently] still sends the
    metadata-clear request, and resolves when that is accepted. *)
Theorem unlinked_session_is_cleared_on_resume_only
    (fuel : nat) (s : LocalSession) (w : W) :
  truthy_str (happySessionId s) = false ->
  requests (events (Executor.killSessionSilently host baseUrl fuel s w))
  = requests (events (Executor.killSession host baseUrl fuel s w))
    ++ (if is_ok (outcome (Executor.killSession host baseUrl fuel s w))
        then [Clear (is_ok (outcome (Executor.killSessionSilently host baseUrl
                                       fuel s w)))]
        else []) /\
  count is_clear
    (requests (events (Executor.killSession host baseUrl fuel s w))) = 0%nat.
Proof.
  intros Hlink.
  rewrite exec_killSessionSilently_run, exec_killSession_run, Hlink in *.
  destruct (truthy_num (pid s)); [|split; reflexivity].
  destruct (axios_post_kill host _ _ w) as [[d|m] w1]; [|split; reflexivity].
  pose proof (pollLoop_polling host baseUrl (claudeSessionId s) 10000 500
                (Date_now host w1) fuel w1) as Hp.
  destruct (ApiClient.pollLoop host baseUrl fuel _ _ _ _ _ w1)
    as [[[s'|e|] w2] t2]; cbn [outcome events is_ok fst snd] in *.
  - split.
    + destruct (axios_post_upsert host _ w2) as [[u|m] w3];
        cbn; rewrite !requests_app, app_nil_r; reflexivity.
    + unfold count. cbn. rewrite app_nil_r.
      rewrite (polling_no_clear _ _ Hp). reflexivity.
  - split; [rewrite app_nil_r; reflexivity|].
    unfold count. cbn. rewrite (polling_no_clear _ _ Hp). reflexivity.
  - split; [rewrite app_nil_r; reflexivity|].
    unfold count. cbn. rewrite (polling_no_clear _ _ Hp). reflexivity.
Qed.

End Unlinked.

Lemma unlinked_session_is_cleared_on_resume_only_witness :
  requests (events (Executor.killSessionSilently Sim.scripted Sim.url 30
                      (Tree.session Listing.app1) Scenario.prompt))
  = requests (events (Executor.killSession Sim.scripted Sim.url 30
                        (Tree.session Listing.app1) Scenario.prompt))
    ++ [Clear true] /\
  count is_clear
    (requests (events (Executor.killSession Sim.scripted Sim.url 30
                         (Tree.session Listing.app1) Scenario.prompt)))
  = 0%nat.
Proof.
  apply (unlinked_session_is_cleared_on_resume_only Sim.scripted Sim.url 30
           (Tree.session Listing.app1) Scenario.prompt).
  reflexivity.
Defined.
